(** * trailmet experiment notebooks: a shallow embedding

    The repository holds three notebook scripts that drive an external
    model-compression library:

    - [experiments/distillation/Factor Transfer/FactorTransfer.ipynb]
    - [experiments/pruning/chipnet/trailmet.ipynb] (ChipNet), and the
      BitSplit notebook stored in the same file after it.

    Each notebook is a straight-line Python script.  It is embedded here as
    a program of a small error-and-trace monad: calls into the external
    library and the I/O layer are answered by a [World], every operation the
    script performs is recorded in a trace, and the first exception ends
    the run.  The Python values the scripts manipulate themselves (the YAML
    configuration, checkpoints, the dataset bundle) are modelled as trees of
    scalars, lists and dicts with Python's own lookup, membership and
    [dict.update] rules. *)

From Stdlib Require Import String Ascii List ZArith QArith Bool Lia.
From Stdlib Require Import Reals Lra.
Import ListNotations.

Set Warnings "-register-all".

Local Open Scope string_scope.
Local Open Scope list_scope.

(** ** Python values *)

Module Py.

(** An exception: its class and its message. *)
Record exn : Type := Exn { exn_class : string; exn_msg : string }.

Inductive result (A : Type) : Type :=
| Ok (a : A)
| Raise (e : exn).
Arguments Ok {A} a.
Arguments Raise {A} e.

Definition is_ok {A} (r : result A) : bool :=
  match r with Ok _ => true | Raise _ => false end.

Definition TypeError (msg : string) : exn := Exn "TypeError" msg.
Definition KeyError (msg : string) : exn := Exn "KeyError" msg.
Definition IndexError (msg : string) : exn := Exn "IndexError" msg.
Definition ValueError (msg : string) : exn := Exn "ValueError" msg.
Definition AssertionError (msg : string) : exn := Exn "AssertionError" msg.
Definition RuntimeError (msg : string) : exn := Exn "RuntimeError" msg.

(** The hashable scalars: [None], [bool], [int], [str] and finite [float]s,
    a float being given by its exact rational value. *)
Inductive scalar : Type :=
| SNone
| SBool (b : bool)
| SInt (z : Z)
| SFloat (q : Q)
| SStr (s : string).

(** A Python value over leaves [L]: [L] is empty for a YAML document, the
    tensors for a checkpoint, library objects for a dataset bundle.  A dict
    is the list of its entries in insertion order, with pairwise different
    keys. *)
Inductive pyval (L : Type) : Type :=
| VScalar (s : scalar)
| VList (l : list (pyval L))
| VDict (d : list (scalar * pyval L))
| VLeaf (x : L).
Arguments VScalar {L} s.
Arguments VList {L} l.
Arguments VDict {L} d.
Arguments VLeaf {L} x.

Definition VStr {L} (s : string) : pyval L := VScalar (SStr s).
Definition VInt {L} (z : Z) : pyval L := VScalar (SInt z).
Definition VFloat {L} (q : Q) : pyval L := VScalar (SFloat q).
Definition VBool {L} (b : bool) : pyval L := VScalar (SBool b).
Definition VNone {L} : pyval L := VScalar SNone.

(** The number a scalar stands for: [True] is 1 and [False] is 0. *)
Definition num_of (s : scalar) : option Q :=
  match s with
  | SBool b => Some (inject_Z (if b then 1 else 0))
  | SInt z => Some (inject_Z z)
  | SFloat q => Some q
  | SNone | SStr _ => None
  end.

(** [==] on scalars, which is also the equality of dict keys:
    [1 == 1.0 == True]. *)
Definition scalar_eq (a b : scalar) : bool :=
  match num_of a, num_of b with
  | Some x, Some y => Qeq_bool x y
  | None, None =>
      match a, b with
      | SNone, SNone => true
      | SStr s, SStr t => String.eqb s t
      | _, _ => false
      end
  | _, _ => false
  end.

Section Dict.
Context {V : Type}.

(** [d[k]] on the entries of a dict. *)
Fixpoint dict_get (d : list (scalar * V)) (k : scalar) : option V :=
  match d with
  | [] => None
  | (k', v) :: d' => if scalar_eq k' k then Some v else dict_get d' k
  end.

(** [d[k] = v]: an existing key keeps its place (and its key object), a
    new key goes last. *)
Fixpoint dict_set (d : list (scalar * V)) (k : scalar) (v : V)
  : list (scalar * V) :=
  match d with
  | [] => [(k, v)]
  | (k', v') :: d' =>
      if scalar_eq k' k then (k', v) :: d' else (k', v') :: dict_set d' k v
  end.

(** [d.update(other)] for a mapping [other]: its entries are assigned in
    order. *)
Definition dict_merge (d other : list (scalar * V)) : list (scalar * V) :=
  fold_left (fun acc kv => dict_set acc (fst kv) (snd kv)) other d.

Definition dict_mem (d : list (scalar * V)) (k : scalar) : bool :=
  match dict_get d k with Some _ => true | None => false end.

End Dict.

Section Values.
Context {L : Type}.
Variable leaf_eq : L -> L -> bool.

(** [a == b]. *)
Fixpoint py_eq (a b : pyval L) {struct a} : bool :=
  match a, b with
  | VScalar s, VScalar t => scalar_eq s t
  | VList l, VList m =>
      (fix all2 (l : list (pyval L)) (m : list (pyval L)) : bool :=
         match l, m with
         | [], [] => true
         | x :: l', y :: m' => py_eq x y && all2 l' m'
         | _, _ => false
         end) l m
  | VDict d, VDict e =>
      Nat.eqb (length d) (length e) &&
      (fix sub (d : list (scalar * pyval L)) : bool :=
         match d with
         | [] => true
         | (k, v) :: d' =>
             match dict_get e k with
             | Some w => py_eq v w
             | None => false
             end && sub d'
         end) d
  | VLeaf x, VLeaf y => leaf_eq x y
  | _, _ => false
  end.

(** The key a value gives, when it is hashable. *)
Definition as_key (v : pyval L) : result scalar :=
  match v with
  | VScalar s => Ok s
  | VList _ => Raise (TypeError "unhashable type: 'list'")
  | VDict _ => Raise (TypeError "unhashable type: 'dict'")
  | VLeaf _ => Raise (TypeError "unhashable type")
  end.

(** An index into a sequence of length [n]: an [int] or a [bool],
    counted from the end when negative. *)
Definition seq_index (n : nat) (k : pyval L) : result nat :=
  let at_ (i : Z) :=
    let j := (if i <? 0 then i + Z.of_nat n else i)%Z in
    if ((0 <=? j) && (j <? Z.of_nat n))%Z then Ok (Z.to_nat j)
    else Raise (IndexError "index out of range") in
  match k with
  | VScalar (SInt i) => at_ i
  | VScalar (SBool b) => at_ (if b then 1 else 0)%Z
  | _ => Raise (TypeError "indices must be integers")
  end.

(** [c[k]]. *)
Definition getitem (c k : pyval L) : result (pyval L) :=
  match c with
  | VDict d =>
      match as_key k with
      | Raise e => Raise e
      | Ok s =>
          match dict_get d s with
          | Some v => Ok v
          | None => Raise (KeyError "key not found")
          end
      end
  | VList l =>
      match seq_index (length l) k with
      | Raise e => Raise e
      | Ok i =>
          match nth_error l i with
          | Some v => Ok v
          | None => Raise (IndexError "index out of range")
          end
      end
  | VScalar (SStr s) =>
      match seq_index (String.length s) k with
      | Raise e => Raise e
      | Ok i =>
          match String.get i s with
          | Some ch => Ok (VStr (String ch EmptyString))
          | None => Raise (IndexError "index out of range")
          end
      end
  | VScalar _ | VLeaf _ => Raise (TypeError "object is not subscriptable")
  end.

(** [k in c]. *)
Definition contains (c k : pyval L) : result bool :=
  match c with
  | VDict d =>
      match as_key k with
      | Raise e => Raise e
      | Ok s => Ok (dict_mem d s)
      end
  | VList l => Ok (existsb (fun x => py_eq x k) l)
  | VScalar (SStr s) =>
      match k with
      | VScalar (SStr t) =>
          Ok (match String.index 0 t s with Some _ => true | None => false end)
      | _ => Raise (TypeError "'in <string>' requires string as left operand")
      end
  | VScalar _ | VLeaf _ => Raise (TypeError "argument is not iterable")
  end.

(** One element of the sequence given to [dict.update], read as a
    (key, value) pair: any iterable of exactly two items. *)
Definition as_pair (item : pyval L) : result (scalar * pyval L) :=
  match item with
  | VList [k; v] =>
      match as_key k with
      | Raise e => Raise e
      | Ok s => Ok (s, v)
      end
  | VDict [(k1, _); (k2, _)] => Ok (k1, VScalar k2)
  | VScalar (SStr (String a (String b EmptyString))) =>
      Ok (SStr (String a EmptyString), VStr (String b EmptyString))
  | VList _ | VDict _ | VScalar (SStr _) =>
      Raise (ValueError "dictionary update sequence element has the wrong length; 2 is required")
  | VScalar _ | VLeaf _ =>
      Raise (TypeError "cannot convert dictionary update sequence element to a sequence")
  end.

Fixpoint update_pairs (d : list (scalar * pyval L)) (items : list (pyval L))
  : result (list (scalar * pyval L)) :=
  match items with
  | [] => Ok d
  | item :: rest =>
      match as_pair item with
      | Raise e => Raise e
      | Ok (k, v) => update_pairs (dict_set d k v) rest
      end
  end.

(** [d.update(other)]: [other] is a mapping, or an iterable of pairs. *)
Definition dict_update (d : list (scalar * pyval L)) (other : pyval L)
  : result (list (scalar * pyval L)) :=
  match other with
  | VDict e => Ok (dict_merge d e)
  | VList items => update_pairs d items
  | VScalar (SStr EmptyString) => Ok d
  | VScalar (SStr _) =>
      Raise (ValueError "dictionary update sequence element #0 has length 1; 2 is required")
  | VScalar _ | VLeaf _ => Raise (TypeError "object is not iterable")
  end.

(** Keyword unpacking at a call: the unpacked argument must be a mapping
    and its keys strings. *)
Fixpoint str_keys (d : list (scalar * pyval L)) : result (list (string * pyval L)) :=
  match d with
  | [] => Ok []
  | (SStr k, v) :: d' =>
      match str_keys d' with
      | Raise e => Raise e
      | Ok kw => Ok ((k, v) :: kw)
      end
  | _ :: _ => Raise (TypeError "keywords must be strings")
  end.

Definition unpack_kwargs (m : pyval L) : result (list (string * pyval L)) :=
  match m with
  | VDict d => str_keys d
  | _ => Raise (TypeError "argument after ** must be a mapping")
  end.

(** [target.update(other)]: only a dict has the method. *)
Definition update (target other : pyval L) : result (pyval L) :=
  match target with
  | VDict d =>
      match dict_update d other with
      | Raise e => Raise e
      | Ok d' => Ok (VDict d')
      end
  | _ => Raise (Exn "AttributeError" "object has no attribute 'update'")
  end.

(** [c[k] = v] for a string [k]. *)
Definition setitem_str (c : pyval L) (k : string) (v : pyval L)
  : result (pyval L) :=
  match c with
  | VDict d => Ok (VDict (dict_set d (SStr k) v))
  | _ => Raise (TypeError "object does not support item assignment with a string key")
  end.
End Values.

End Py.

(** ** The external library and the I/O layer, as the notebooks see them *)

Module Lib.
Import Py.

(** A tensor: its shape and a handle on its contents. *)
Record tensor : Type := Tensor { t_shape : list nat; t_data : nat }.

(** A library object held in the dataset bundle. *)
Inductive object : Type :=
| Dataset (id : nat)
| Sampler (id : nat).

(** What [yaml.safe_load], [torch.load] and
    [DatasetFactory.create_dataset] return. *)
Definition yaml : Type := pyval Empty_set.
Definition checkpoint : Type := pyval tensor.
Definition bundle : Type := pyval object.

Definition yaml_leaf_eq (a b : Empty_set) : bool := true.

(** A [torchvision.transforms.Compose]: the transforms it chains. *)
Definition transform : Type := list string.

(** The arguments of [DatasetFactory.create_dataset]. *)
Record dataset_args : Type := DatasetArgs {
  ds_name : string;
  ds_root : string;
  ds_split_types : list string;
  ds_val_fraction : Q;
  ds_transform : list (string * transform);
  ds_target_transform : list (string * option transform);
  ds_random_seed : option Z
}.

(** A [torch.utils.data.DataLoader]. *)
Record loader : Type := DataLoader {
  ld_dataset : bundle;
  ld_batch_size : Z;
  ld_sampler : bundle;
  ld_num_workers : Z
}.

(** The arguments of the model factories [get_resnet_model],
    [ModelsFactory.create_model] and [resnet.make_resnet50]. *)
Record model_args : Type := ModelArgs {
  mk_factory : string;
  mk_name : string;
  mk_num_classes : Z;
  mk_insize : Z;
  mk_pretrained : option bool
}.

(** A model: its state dict (parameter and buffer names with their
    tensors), the device it lives on and its train/eval mode. *)
Record model : Type := Model {
  m_arch : string;
  m_state : list (string * tensor);
  m_device : string;
  m_training : bool
}.

Definition to_device (m : model) (device : string) : model :=
  {| m_arch := m_arch m; m_state := m_state m;
     m_device := device; m_training := m_training m |}.

Definition eval_mode (m : model) : model :=
  {| m_arch := m_arch m; m_state := m_state m;
     m_device := m_device m; m_training := false |}.

Fixpoint assoc {V} (k : string) (l : list (string * V)) : option V :=
  match l with
  | [] => None
  | (k', v) :: l' => if String.eqb k' k then Some v else assoc k l'
  end.

Definition shape_eqb (a b : list nat) : bool :=
  if list_eq_dec Nat.eq_dec a b then true else false.

(** [torch.nn.Module.load_state_dict] with its default [strict=True]:
    every entry of the given state dict must name a key of the model and
    hold a tensor of that key's shape, and no key of the model may be
    missing; otherwise the call raises and the model is unchanged. *)
Definition entry_fits (m : model) (kv : scalar * checkpoint) : bool :=
  match kv with
  | (SStr name, VLeaf t) =>
      match assoc name (m_state m) with
      | Some t0 => shape_eqb (t_shape t0) (t_shape t)
      | None => false
      end
  | _ => false
  end.

Definition key_present (d : list (scalar * checkpoint)) (kt : string * tensor) : bool :=
  dict_mem d (SStr (fst kt)).

Definition state_dict_matches (m : model) (d : list (scalar * checkpoint)) : bool :=
  forallb (entry_fits m) d && forallb (key_present d) (m_state m).

Definition loaded_state (m : model) (d : list (scalar * checkpoint))
  : list (string * tensor) :=
  map (fun kt => match dict_get d (SStr (fst kt)) with
                 | Some (VLeaf t) => (fst kt, t)
                 | _ => kt
                 end) (m_state m).

Definition load_state_dict (m : model) (sd : checkpoint) : result model :=
  match sd with
  | VDict d =>
      if state_dict_matches m d
      then Ok {| m_arch := m_arch m; m_state := loaded_state m d;
                 m_device := m_device m; m_training := m_training m |}
      else Raise (RuntimeError "Error(s) in loading state_dict")
  | _ => Raise (TypeError "Expected state_dict to be dict-like")
  end.

(** The three compression algorithms of the library. *)
Inductive algorithm : Type := FactorTransfer | ChipNet | BitSplit.

(** A compression-algorithm object: what its constructor was given. *)
Record compressor : Type := Compressor {
  c_alg : algorithm;
  c_models : list model;
  c_loaders : list (string * loader);
  c_kwargs : list (string * yaml)
}.

(** A path built by an f-string: literal text and formatted values. *)
Inductive fpart : Type :=
| Text (s : string)
| Format (v : yaml).
Definition path : Type := list fpart.

(** The answers of everything outside the notebooks. *)
Record World : Type := {
  cuda_is_available : bool;
  read_text : string -> result string;
  yaml_safe_load : string -> result yaml;
  torch_load : path -> option string -> result checkpoint;
  load_state_dict_from_url : string -> result checkpoint;
  create_dataset : dataset_args -> result bundle;
  create_model : model_args -> result model;
  init_compressor : compressor -> result unit;
  compress_model : compressor -> result model;
  test : compressor -> model -> loader -> result (Q * Q);
  loader_len : loader -> nat;
  loader_batch : loader -> nat -> result (nat * list nat);
  forward : model -> nat -> result (list (list R))
}.

(** An operation a notebook performs. *)
Inductive call : Type :=
| Shell (cmd : string)
| WriteFile (file : string) (content : string)
| CudaIsAvailable
| OpenRead (file : string)
| YamlSafeLoad (text : string)
| TorchLoad (p : path) (map_location : option string)
| LoadStateDictFromUrl (url : string)
| CreateDataset (a : dataset_args)
| NewDataLoader (l : loader)
| CreateModel (a : model_args)
| ToDevice (m : model) (device : string)
| EvalMode (m : model)
| LoadStateDict (m : model) (sd : checkpoint)
| Construct (c : compressor)
| CompressModel (c : compressor)
| Test (c : compressor) (m : model) (l : loader)
| NextBatch (l : loader) (i : nat)
| Forward (m : model) (images : nat)
| AccuracyScore
| Python (stmt : string)
| Print (what : string).

(** A performed operation and the exception it raised, if any. *)
Record event : Type := Ev { ev_call : call; ev_exn : option exn }.
Definition trace : Type := list event.

End Lib.

(** ** The notebook monad *)

Module Script.
Import Py Lib.

Definition M (A : Type) : Type := World -> trace * result A.

Definition ret {A} (a : A) : M A := fun _ => ([], Ok a).

Definition bind {A B} (m : M A) (f : A -> M B) : M B :=
  fun w =>
    match m w with
    | (t1, Raise e) => (t1, Raise e)
    | (t1, Ok a) =>
        match f a w with
        | (t2, r) => (t1 ++ t2, r)
        end
    end.

(** Perform one operation: it is recorded, with its exception when it
    raises. *)
Definition perform {A} (c : call) (r : World -> result A) : M A :=
  fun w =>
    match r w with
    | Ok a => ([Ev c None], Ok a)
    | Raise e => ([Ev c (Some e)], Raise e)
    end.

(** A statement of the script that needs no outside answer. *)
Definition python {A} (stmt : string) (r : result A) : M A :=
  perform (Python stmt) (fun _ => r).

Definition void {A} (m : M A) : M unit := bind m (fun _ => ret tt).

Definition trace_of {A} (m : M A) (w : World) : trace := fst (m w).
Definition outcome {A} (m : M A) (w : World) : result A := snd (m w).
Definition succeeds {A} (m : M A) (w : World) : Prop :=
  exists a, outcome m w = Ok a.

End Script.

Declare Scope script_scope.
Delimit Scope script_scope with script.
Notation "x <- m ;; k" := (Script.bind m (fun x => k))
  (at level 61, m at next level, right associativity) : script_scope.
Notation "m ;;; k" := (Script.bind m (fun _ => k))
  (at level 61, right associativity) : script_scope.

(** ** numpy, torch and scikit-learn functions of the evaluation cell,
    in exact real arithmetic *)

Module Eval.
Import Py.
Local Open Scope R_scope.

(** [t.softmax(1)] on one row. *)
Definition softmax_row (row : list R) : list R :=
  let total := fold_right Rplus 0 (map exp row) in
  map (fun x => exp x / total) row.

Definition softmax1 (rows : list (list R)) : list (list R) :=
  map softmax_row rows.

(** [argmax] of a row: the index of the first greatest entry. *)
Fixpoint argmax_from (best_i : nat) (best : R) (i : nat) (l : list R) : nat :=
  match l with
  | [] => best_i
  | x :: l' =>
      if Rlt_dec best x then argmax_from i x (S i) l'
      else argmax_from best_i best (S i) l'
  end.

Definition argmax_row (row : list R) : result nat :=
  match row with
  | [] => Raise (ValueError "attempt to get argmax of an empty sequence")
  | x :: l => Ok (argmax_from 0 x 1 l)
  end.

(** [a.argmax(1)]. *)
Fixpoint argmax1 (rows : list (list R)) : result (list nat) :=
  match rows with
  | [] => Ok []
  | row :: rest =>
      match argmax_row row with
      | Raise e => Raise e
      | Ok i =>
          match argmax1 rest with
          | Raise e => Raise e
          | Ok is_ => Ok (i :: is_)
          end
      end
  end.

(** [np.concatenate(arrays)] along the first axis. *)
Definition np_concatenate {A} (arrays : list (list A)) : result (list A) :=
  match arrays with
  | [] => Raise (ValueError "need at least one array to concatenate")
  | _ :: _ => Ok (concat arrays)
  end.

Fixpoint count_equal (a b : list nat) : nat :=
  match a, b with
  | x :: a', y :: b' => ((if Nat.eqb x y then 1 else 0) + count_equal a' b')%nat
  | _, _ => 0%nat
  end.

(** [sklearn.metrics.accuracy_score(y_true, y_pred)]: the fraction of
    equal positions. *)
Definition accuracy_score (y_true y_pred : list nat) : result R :=
  if Nat.eqb (length y_true) (length y_pred)
  then Ok (INR (count_equal y_true y_pred) / INR (length y_true))
  else Raise (ValueError "Found input variables with inconsistent numbers of samples").

(** The score the evaluation cell computes from the collected batches: the
    predictions (one array per batch) and the labels are concatenated, the
    class of a row is its [argmax]. *)
Definition score_of (preds : list (list (list R))) (valid_labels : list (list nat))
  : result R :=
  match np_concatenate preds with
  | Raise e => Raise e
  | Ok predictions =>
      match np_concatenate valid_labels with
      | Raise e => Raise e
      | Ok labels =>
          match argmax1 predictions with
          | Raise e => Raise e
          | Ok classes => accuracy_score labels classes
          end
      end
  end.

End Eval.

(** ** The notebooks *)

Module Notebooks.
Import Py Lib Script Eval.
Local Open Scope script_scope.

(** [c[k]] for a string [k], as the statement [stmt] of the script. *)
Definition subscript {L} (stmt : string) (c : pyval L) (k : string) : M (pyval L) :=
  python stmt (getitem c (VStr k)).

Definition new_loader (dataset : bundle) (batch_size : Z) (sampler : bundle)
    (num_workers : Z) : M loader :=
  let l := DataLoader dataset batch_size sampler num_workers in
  perform (NewDataLoader l) (fun _ => Ok l).

Definition open_yaml (file : string) : M yaml :=
  stream <- perform (OpenRead file) (fun w => read_text w file) ;;
  perform (YamlSafeLoad stream) (fun w => yaml_safe_load w stream).

(** [Algorithm(models..., dataloaders, **config)]. *)
Definition construct (stmt : string) (alg : algorithm) (models : list model)
    (dataloaders : list (string * loader)) (config : yaml) : M compressor :=
  kwargs <- python stmt (unpack_kwargs config) ;;
  let c := Compressor alg models dataloaders kwargs in
  perform (Construct c) (fun w => init_compressor w c) ;;;
  ret c.

Definition load_weights (m : model) (sd : checkpoint) : M model :=
  perform (LoadStateDict m sd) (fun _ => load_state_dict m sd).

Definition move_to (m : model) (device : string) : M model :=
  perform (ToDevice m device) (fun _ => Ok (to_device m device)).

Definition loader_of (stmt : string) (dataloaders : list (string * loader))
    (k : string) : M loader :=
  python stmt (match assoc k dataloaders with
               | Some l => Ok l
               | None => Raise (KeyError k)
               end).

Definition no_target_transforms : list (string * option transform) :=
  [("train", None); ("val", None); ("test", None)].

(** *** FactorTransfer.ipynb *)

Module FT.

Definition transform_train : transform :=
  ["ToTensor()"; "Pad(4, padding_mode='reflect')"; "RandomHorizontalFlip(p=0.5)";
   "RandomCrop(32)";
   "Normalize((0.4914, 0.4822, 0.4465), (0.247, 0.243, 0.261))"].

Definition transform_test : transform :=
  ["ToTensor()"; "Normalize((0.4914, 0.4822, 0.4465), (0.247, 0.243, 0.261))"].

Definition transforms1 : list (string * transform) :=
  [("train", transform_train); ("val", transform_test); ("test", transform_test)].

Definition dataset_call : dataset_args :=
  {| ds_name := "CIFAR10"; ds_root := "./data";
     ds_split_types := ["train"; "val"; "test"];
     ds_val_fraction := 1 # 10;
     ds_transform := transforms1;
     ds_target_transform := no_target_transforms;
     ds_random_seed := Some 42%Z |}.

(** The body of the test loop, for the batch indices [idx]. *)
Fixpoint test_loop (student_model : model) (test_loader : loader)
    (idx : list nat) (preds : list (list (list R)))
    (valid_labels : list (list nat))
  : M (list (list (list R)) * list (list nat)) :=
  match idx with
  | [] => ret (preds, valid_labels)
  | i :: rest =>
      batch <- perform (NextBatch test_loader i)
                 (fun w => loader_batch w test_loader i) ;;
      y_preds <- perform (Forward student_model (fst batch))
                   (fun w => forward w student_model (fst batch)) ;;
      test_loop student_model test_loader rest
        (preds ++ [softmax1 y_preds]) (valid_labels ++ [snd batch])
  end.

Definition notebook : M R :=
  cuda <- perform CudaIsAvailable (fun w => Ok (cuda_is_available w)) ;;
  let device := if cuda : bool then "cuda:0" else "cpu" in
  (* Load Dataset *)
  cifar_dataset <- perform (CreateDataset dataset_call)
                     (fun w => create_dataset w dataset_call) ;;
  (* Define data loaders *)
  d <- subscript "cifar_dataset['train_dataset']" cifar_dataset "train_dataset" ;;
  s <- subscript "cifar_dataset['train_sampler']" cifar_dataset "train_sampler" ;;
  train_loader <- new_loader d 128 s 2 ;;
  d <- subscript "cifar_dataset['val_dataset']" cifar_dataset "val_dataset" ;;
  s <- subscript "cifar_dataset['val_sampler']" cifar_dataset "val_sampler" ;;
  val_loader <- new_loader d 128 s 2 ;;
  d <- subscript "cifar_dataset['test_dataset']" cifar_dataset "test_dataset" ;;
  s <- subscript "cifar_dataset['test_sampler']" cifar_dataset "test_sampler" ;;
  test_loader <- new_loader d 128 s 2 ;;
  let dataloaders :=
    [("train", train_loader); ("val", val_loader); ("test", test_loader)] in
  (* Create the teacher and student models *)
  let teacher_args := ModelArgs "get_resnet_model" "resnet50" 100 32 (Some false) in
  let student_args := ModelArgs "get_resnet_model" "resnet18" 100 32 (Some false) in
  teacher_model <- perform (CreateModel teacher_args)
                     (fun w => create_model w teacher_args) ;;
  student_model <- perform (CreateModel student_args)
                     (fun w => create_model w student_args) ;;
  teacher_model <- move_to teacher_model device ;;
  student_model <- move_to student_model device ;;
  (* Load Pretrained Teacher Model *)
  let file := [Text "./resnet50_cifar100_pretrained.pth"] in
  loaded <- perform (TorchLoad file None) (fun w => torch_load w file None) ;;
  weights <- subscript "torch.load(...)['state_dict']" loaded "state_dict" ;;
  teacher_model <- load_weights teacher_model weights ;;
  (* Load configurations for training the student model *)
  data_loaded <- open_yaml "./resnet50-resnet18.yaml" ;;
  distillation_box <-
    construct "**data_loaded" FactorTransfer [teacher_model; student_model]
      dataloaders data_loaded ;;
  (* the pipeline trains [student_model] in place *)
  student_model <- perform (CompressModel distillation_box)
                     (fun w => compress_model w distillation_box) ;;
  (* Evaluate student model on test set *)
  log_dir <- subscript "data_loaded['log_dir']" data_loaded "log_dir" ;;
  let file := [Text "./checkpoints/"; Format log_dir; Text ".pth"] in
  loaded <- perform (TorchLoad file None) (fun w => torch_load w file None) ;;
  state <- subscript "torch.load(...)['state_dict']" loaded "state_dict" ;;
  student_model <- load_weights student_model state ;;
  student_model <- perform (EvalMode student_model)
                     (fun _ => Ok (eval_mode student_model)) ;;
  total <- perform (Python "len(test_loader)")
             (fun w => Ok (loader_len w test_loader)) ;;
  collected <- test_loop student_model test_loader (seq 0 total) [] [] ;;
  predictions <- python "np.concatenate(preds)" (np_concatenate (fst collected)) ;;
  valid_labels <- python "np.concatenate(valid_labels)"
                    (np_concatenate (snd collected)) ;;
  classes <- python "predictions.argmax(1)" (argmax1 predictions) ;;
  perform AccuracyScore (fun _ => accuracy_score valid_labels classes).

End FT.

(** *** trailmet.ipynb (ChipNet) *)

Module CN.

Definition root : string := "/content/trailmet/experiments/chipnet".

(** [os.path.join(root, name)] for a relative name. *)
Definition path_join (dir name : string) : string := dir ++ "/" ++ name.

Definition config_text : string :=
"CHIPNET_ARGS:
    A: 10

PRETRAIN:
    EPOCHS: 1

PRUNE:
    EPOCHS: 1

FINETUNE:
    EPOCHS: 2".

Definition pretrained_weights : string :=
  "https://download.pytorch.org/models/resnet18-f37072fd.pth".

Definition data_root : string := "/content/data_dir".

Definition transforms1 : list (string * transform) :=
  [("train", ["ToTensor()"]); ("val", ["ToTensor()"]); ("test", ["ToTensor()"])].

Definition dataset_call : dataset_args :=
  {| ds_name := "CIFAR10"; ds_root := data_root;
     ds_split_types := ["train"; "val"; "test"];
     ds_val_fraction := 2 # 10;
     ds_transform := transforms1;
     ds_target_transform := no_target_transforms;
     ds_random_seed := None |}.

Definition model_call : model_args :=
  ModelArgs "ModelsFactory.create_model" "resnet18" 10 32 (Some false).

Definition notebook : M Z :=
  perform (Shell "cd trailmet") (fun _ => Ok tt) ;;;
  perform (Shell "git pull") (fun _ => Ok tt) ;;;
  perform (WriteFile "experiments/chipnet/resnet50_cifar10.yaml" config_text)
    (fun _ => Ok tt) ;;;
  data_loaded <- open_yaml (path_join root "resnet50_cifar10.yaml") ;;
  perform (Print "data_loaded") (fun _ => Ok tt) ;;;
  model <- perform (CreateModel model_call) (fun w => create_model w model_call) ;;
  weights <- perform (LoadStateDictFromUrl pretrained_weights)
               (fun w => load_state_dict_from_url w pretrained_weights) ;;
  perform (Shell "mkdir /content/data_dir") (fun _ => Ok tt) ;;;
  cifar_dataset <- perform (CreateDataset dataset_call)
                     (fun w => create_dataset w dataset_call) ;;
  d <- subscript "cifar_dataset['train_dataset']" cifar_dataset "train_dataset" ;;
  s <- subscript "cifar_dataset['train_sampler']" cifar_dataset "train_sampler" ;;
  train_loader <- new_loader d 64 s 0 ;;
  d <- subscript "cifar_dataset['val_dataset']" cifar_dataset "val_dataset" ;;
  s <- subscript "cifar_dataset['val_sampler']" cifar_dataset "val_sampler" ;;
  val_loader <- new_loader d 64 s 0 ;;
  d <- subscript "cifar_dataset['test_dataset']" cifar_dataset "test_dataset" ;;
  s <- subscript "cifar_dataset['test_sampler']" cifar_dataset "test_sampler" ;;
  test_loader <- new_loader d 64 s 0 ;;
  a <- construct "**data_loaded" ChipNet [model]
         [("train", train_loader); ("val", val_loader); ("test", test_loader)]
         data_loaded ;;
  perform (CompressModel a) (fun w => compress_model w a) ;;;
  (* sum([0,0,True]) *)
  ret (0 + 0 + 1)%Z.

End CN.

(** *** The BitSplit notebook *)

Module BS.

Definition stats : string :=
  "(0.5071, 0.4867, 0.4408), (0.2675, 0.2565, 0.2761)".

Definition train_transform : transform :=
  ["RandomCrop(32, padding=4, padding_mode='reflect')"; "RandomHorizontalFlip()";
   "ToTensor()"; "Normalize(stats[0], stats[1], inplace=True)"].

Definition val_transform : transform := ["ToTensor()"; "Normalize(stats[0], stats[1])"].
Definition test_transform : transform := ["ToTensor()"; "Normalize(stats[0], stats[1])"].

Definition input_transforms : list (string * transform) :=
  [("train", train_transform); ("val", val_transform); ("test", test_transform)].

Definition dataset_call : dataset_args :=
  {| ds_name := "CIFAR100"; ds_root := "./data";
     ds_split_types := ["train"; "val"; "test"];
     ds_val_fraction := 2 # 10;
     ds_transform := input_transforms;
     ds_target_transform := no_target_transforms;
     ds_random_seed := None |}.

Definition model_call : model_args :=
  ModelArgs "resnet.make_resnet50" "resnet50" 100 32 None.

Definition print_size (cifar100_dataset : bundle) (k : string) : M unit :=
  info <- subscript "cifar100_dataset['info']" cifar100_dataset "info" ;;
  subscript "cifar100_dataset['info'][...]" info k ;;;
  perform (Print k) (fun _ => Ok tt).

Definition print_batches (dataloaders : list (string * loader)) (k : string) : M unit :=
  l <- loader_of "dataloaders[...]" dataloaders k ;;
  perform (Python "len(dataloaders[...])") (fun w => Ok (loader_len w l)) ;;;
  perform (Print k) (fun _ => Ok tt).

(** The cell "Load Method Config": the keyword arguments it leaves in
    [kwargs]. *)
Definition load_method_config : M yaml :=
  config <- open_yaml "./bitsplit_config.yaml" ;;
  kwargs <- subscript "config['GENERAL']" config "GENERAL" ;;
  budget <- subscript "kwargs['W_BUDGET']" kwargs "W_BUDGET" ;;
  w_args <- subscript "config['W_ARGS']" config "W_ARGS" ;;
  supported <- python "kwargs['W_BUDGET'] in config['W_ARGS']"
                 (contains yaml_leaf_eq w_args budget) ;;
  python "assert"
    (if supported : bool then Ok tt
     else Raise (AssertionError "given weight budget not supported")) ;;;
  w_args <- subscript "config['W_ARGS']" config "W_ARGS" ;;
  budget <- subscript "kwargs['W_BUDGET']" kwargs "W_BUDGET" ;;
  selected <- python "config['W_ARGS'][kwargs['W_BUDGET']]" (getitem w_args budget) ;;
  kwargs <- python "kwargs.update(...)" (update kwargs selected) ;;
  python "kwargs['CALIB_BATCHES'] = 2" (setitem_str kwargs "CALIB_BATCHES" (VInt 2)).

Definition notebook : M (Q * Q) :=
  (* Load Datasets *)
  cifar100_dataset <- perform (CreateDataset dataset_call)
                        (fun w => create_dataset w dataset_call) ;;
  print_size cifar100_dataset "train_size" ;;;
  print_size cifar100_dataset "val_size" ;;;
  print_size cifar100_dataset "test_size" ;;;
  (* Define Dataloaders *)
  d <- subscript "cifar100_dataset['train']" cifar100_dataset "train" ;;
  s <- subscript "cifar100_dataset['train_sampler']" cifar100_dataset "train_sampler" ;;
  train_loader <- new_loader d 128 s 0 ;;
  d <- subscript "cifar100_dataset['val']" cifar100_dataset "val" ;;
  s <- subscript "cifar100_dataset['val_sampler']" cifar100_dataset "val_sampler" ;;
  val_loader <- new_loader d 128 s 0 ;;
  d <- subscript "cifar100_dataset['test']" cifar100_dataset "test" ;;
  s <- subscript "cifar100_dataset['test_sampler']" cifar100_dataset "test_sampler" ;;
  test_loader <- new_loader d 128 s 0 ;;
  let dataloaders :=
    [("train", train_loader); ("val", val_loader); ("test", test_loader)] in
  print_batches dataloaders "train" ;;;
  print_batches dataloaders "val" ;;;
  print_batches dataloaders "test" ;;;
  (* Load Pretrained Model *)
  res50_model <- perform (CreateModel model_call)
                   (fun w => create_model w model_call) ;;
  let file := [Text "./weights/resnet50_cifar100_pretrained.pth"] in
  checkpoint <- perform (TorchLoad file (Some "cuda:0"))
                  (fun w => torch_load w file (Some "cuda:0")) ;;
  state <- subscript "checkpoint['state_dict']" checkpoint "state_dict" ;;
  res50_model <- load_weights res50_model state ;;
  (* Load Method Config *)
  kwargs <- load_method_config ;;
  (* Quantization Method: Bitsplit *)
  quantizer <- construct "**kwargs" BitSplit [res50_model] dataloaders kwargs ;;
  perform (Print "testing pretrained model before quantization") (fun _ => Ok tt) ;;;
  l <- loader_of "dataloaders['test']" dataloaders "test" ;;
  perform (Test quantizer res50_model l) (fun w => test w quantizer res50_model l) ;;;
  perform (Print "top-1 acc, top-5 acc") (fun _ => Ok tt) ;;;
  qmodel <- perform (CompressModel quantizer) (fun w => compress_model w quantizer) ;;
  perform (Print "testing quantized model") (fun _ => Ok tt) ;;;
  l <- loader_of "dataloaders['test']" dataloaders "test" ;;
  acc <- perform (Test quantizer qmodel l) (fun w => test w quantizer qmodel l) ;;
  perform (Print "top-1 acc, top-5 acc") (fun _ => Ok tt) ;;;
  ret acc.

End BS.

(** The three notebooks of the repository. *)
Definition notebooks : list (M unit) :=
  [void FT.notebook; void CN.notebook; void BS.notebook].

End Notebooks.

(** ** A world in which every notebook runs to its end *)

Module Sample.
Import Py Lib Script Notebooks.

Definition ft_config : yaml :=
  VDict
    [(SStr "DISTILL_ARGS",
       VDict [(SStr "BETA", VInt 500); (SStr "EPOCHS", VInt 5);
              (SStr "LR", VFloat (1 # 10)); (SStr "WEIGHT_DECAY", VFloat (5 # 10000));
              (SStr "IN_PLANES", VInt 512); (SStr "RATE", VInt 2);
              (SStr "TEACHER_LAYER_NAME", VStr "layer4");
              (SStr "STUDENT_LAYER_NAME", VStr "layer4");
              (SStr "VERBOSE", VBool true)]);
     (SStr "PARAPHRASER",
       VDict [(SStr "IN_PLANES", VInt 2048); (SStr "RATE", VFloat (1 # 2));
              (SStr "EPOCHS", VInt 1); (SStr "LR", VFloat (1 # 10));
              (SStr "WEIGHT_DECAY", VFloat (5 # 10000))]);
     (SStr "log_dir", VStr "ft_resnet50-resnet18");
     (SStr "cuda_id", VInt 0)].

Definition chipnet_config : yaml :=
  VDict
    [(SStr "CHIPNET_ARGS", VDict [(SStr "A", VInt 10)]);
     (SStr "PRETRAIN", VDict [(SStr "EPOCHS", VInt 1)]);
     (SStr "PRUNE", VDict [(SStr "EPOCHS", VInt 1)]);
     (SStr "FINETUNE", VDict [(SStr "EPOCHS", VInt 2)])].

(** A BitSplit configuration whose file asks for 16 calibration batches. *)
Definition bitsplit_general : list (scalar * yaml) :=
  [(SStr "ARCH", VStr "ResNet50"); (SStr "DATASET", VStr "CIFAR100");
   (SStr "GPU_ID", VInt 0); (SStr "SEED", VInt 42);
   (SStr "W_BUDGET", VFloat (125 # 1000)); (SStr "A_BITS", VInt 8);
   (SStr "ACT_QUANT", VBool true); (SStr "CHANNEL_WISE", VBool true);
   (SStr "CALIB_BATCHES", VInt 16); (SStr "SAVE_PATH", VStr "./scales/");
   (SStr "LOAD_ACT_SCALES", VBool false); (SStr "LOAD_WEIGHT_SCALES", VBool false)].

Definition bitsplit_w_args : list (scalar * yaml) :=
  [(SFloat (125 # 1000), VDict [(SStr "W_BITS", VInt 4)]);
   (SFloat (25 # 100), VDict [(SStr "W_BITS", VInt 8)])].

Definition bitsplit_config : yaml :=
  VDict [(SStr "GENERAL", VDict bitsplit_general);
         (SStr "W_ARGS", VDict bitsplit_w_args)].

Definition state : list (string * tensor) :=
  [("conv1.weight", Tensor [64; 3; 3; 3] 0);
   ("fc.weight", Tensor [100; 512] 1);
   ("fc.bias", Tensor [100] 2)]%nat.

Definition trained_state : checkpoint :=
  VDict [(SStr "conv1.weight", VLeaf (Tensor [64; 3; 3; 3] 10));
         (SStr "fc.weight", VLeaf (Tensor [100; 512] 11));
         (SStr "fc.bias", VLeaf (Tensor [100] 12))]%nat.

Definition the_bundle : bundle :=
  VDict
    [(SStr "train_dataset", VLeaf (Dataset 0)); (SStr "train", VLeaf (Dataset 0));
     (SStr "val_dataset", VLeaf (Dataset 1)); (SStr "val", VLeaf (Dataset 1));
     (SStr "test_dataset", VLeaf (Dataset 2)); (SStr "test", VLeaf (Dataset 2));
     (SStr "train_sampler", VLeaf (Sampler 0));
     (SStr "val_sampler", VLeaf (Sampler 1));
     (SStr "test_sampler", VLeaf (Sampler 2));
     (SStr "info",
       VDict [(SStr "train_size", VInt 40000); (SStr "val_size", VInt 10000);
              (SStr "test_size", VInt 10000)])]%nat.

Definition parse (general_config : yaml) (text : string) : result yaml :=
  if String.eqb text "FT" then Ok ft_config
  else if String.eqb text CN.config_text then Ok chipnet_config
  else Ok general_config.

Definition world_with (bitsplit_file : yaml) : World :=
  {| cuda_is_available := true;
     read_text := fun file =>
       if String.eqb file "./resnet50-resnet18.yaml" then Ok "FT"
       else if String.eqb file (CN.path_join CN.root "resnet50_cifar10.yaml")
            then Ok CN.config_text
       else Ok "BS";
     yaml_safe_load := parse bitsplit_file;
     torch_load := fun _ _ => Ok (VDict [(SStr "state_dict", trained_state)]);
     load_state_dict_from_url := fun _ => Ok trained_state;
     create_dataset := fun _ => Ok the_bundle;
     create_model := fun a => Ok (Model (mk_name a) state "cpu" true);
     init_compressor := fun _ => Ok tt;
     compress_model := fun c => Ok (last (c_models c) (Model "" [] "cpu" true));
     test := fun _ _ _ => Ok (7252 # 100, 9153 # 100);
     loader_len := fun _ => 1%nat;
     loader_batch := fun _ _ => Ok (0%nat, [1; 0]%nat);
     forward := fun _ _ => Ok [[0; 1]; [1; 0]]%R |}.

Definition world : World := world_with bitsplit_config.

(** The same world, with a weight budget the configuration does not list. *)
Definition unsupported_budget_config : yaml :=
  VDict [(SStr "GENERAL", VDict [(SStr "W_BUDGET", VFloat (1 # 3))]);
         (SStr "W_ARGS", VDict bitsplit_w_args)].

Definition unsupported_world : World := world_with unsupported_budget_config.

End Sample.

(** ** What a run shows: observations on traces *)

Module Observe.
Import Py Lib Script Notebooks.


(** The calls of a trace that [f] picks, in order. *)
Fixpoint select {X} (f : call -> option X) (t : trace) : list X :=
  match t with
  | [] => []
  | ev :: t' =>
      match f (ev_call ev) with
      | Some x => x :: select f t'
      | None => select f t'
      end
  end.

Definition constructed : trace -> list compressor :=
  select (fun c => match c with Construct x => Some x | _ => None end).

Definition compressed : trace -> list compressor :=
  select (fun c => match c with CompressModel x => Some x | _ => None end).

(** The calls on a compression-algorithm object that build it or run its
    pipeline. *)
Definition compression_calls : trace -> list call :=
  select (fun c => match c with
                   | Construct _ | CompressModel _ => Some c
                   | _ => None
                   end).

(** The dataset, loader and constructor calls. *)
Definition data_calls : trace -> list call :=
  select (fun c => match c with
                   | CreateDataset _ | NewDataLoader _ | Construct _ => Some c
                   | _ => None
                   end).

(** The calls that touch a model's weights or placement. *)
Definition model_updates : trace -> list call :=
  select (fun c => match c with
                   | LoadStateDict _ _ | ToDevice _ _ | EvalMode _ => Some c
                   | _ => None
                   end).

Definition state_dict_loads : trace -> list (model * checkpoint) :=
  select (fun c => match c with LoadStateDict m sd => Some (m, sd) | _ => None end).


Definition parsed_texts : trace -> list string :=
  select (fun c => match c with YamlSafeLoad text => Some text | _ => None end).

(** *** No handler: the first exception is the outcome *)




(** The operations of the test loop. *)
Definition loop_call (c : call) : bool :=
  match c with NextBatch _ _ | Forward _ _ => true | _ => false end.


(** *** The seven steps *)











(** *** Configuration *)

Definition as_mapping (kwargs : list (string * yaml)) : yaml :=
  VDict (map (fun kv => (SStr (fst kv), snd kv)) kwargs).

(** The run parsed one YAML text and the constructor received exactly the
    entries of the mapping the parser returned. *)
Definition config_passed_unchanged (w : World) (t : trace) : Prop :=
  exists text c,
    parsed_texts t = [text] /\ constructed t = [c] /\
    yaml_safe_load w text = Ok (as_mapping (c_kwargs c)).

(** *** Interfaces *)







(** *** Checkpoints *)



(** *** Dataset bundle and loaders *)

(** [l] serves the split [split] of the bundle [b]: its dataset is the
    bundle's entry for the split and its sampler the split's sampler. *)
Definition serves_split (b : bundle) (split : string) (l : loader) : Prop :=
  (getitem b (VStr (split ++ "_dataset")) = Ok (ld_dataset l) \/
   getitem b (VStr split) = Ok (ld_dataset l)) /\
  getitem b (VStr (split ++ "_sampler")) = Ok (ld_sampler l).

Definition dataset_pipeline (w : World) (t : trace) : Prop :=
  exists a b train val test c,
    data_calls t =
      [CreateDataset a; NewDataLoader train; NewDataLoader val;
       NewDataLoader test; Construct c] /\
    ds_split_types a = ["train"; "val"; "test"] /\
    (0 < ds_val_fraction a)%Q /\ (ds_val_fraction a < 1)%Q /\
    create_dataset w a = Ok b /\
    serves_split b "train" train /\ serves_split b "val" val /\
    serves_split b "test" test /\
    ld_batch_size val = ld_batch_size train /\
    ld_batch_size test = ld_batch_size train /\
    c_loaders c = [("train", train); ("val", val); ("test", test)].

(** *** The download of the ChipNet notebook *)

(** The world [w] with another answer to [load_state_dict_from_url]. *)
Definition with_download (w : World) (answer : string -> result checkpoint) : World :=
  {| cuda_is_available := cuda_is_available w;
     read_text := read_text w;
     yaml_safe_load := yaml_safe_load w;
     torch_load := torch_load w;
     load_state_dict_from_url := answer;
     create_dataset := create_dataset w;
     create_model := create_model w;
     init_compressor := init_compressor w;
     compress_model := compress_model w;
     test := test w;
     loader_len := loader_len w;
     loader_batch := loader_batch w;
     forward := forward w |}.

(** *** Evaluation and weights *)

Definition forwards : trace -> list (model * nat) :=
  select (fun c => match c with Forward m images => Some (m, images) | _ => None end).

Definition fetched : trace -> list (loader * nat) :=
  select (fun c => match c with NextBatch l i => Some (l, i) | _ => None end).

Definition tests : trace -> list (compressor * model * loader) :=
  select (fun c => match c with Test c m l => Some (c, m, l) | _ => None end).

(** The device the FactorTransfer notebook chooses. *)
Definition device_of (w : World) : string :=
  if cuda_is_available w then "cuda:0" else "cpu".

(** Under every name of its state, [m] holds the tensor that the state
    dict [sd] has for that name. *)
Definition holds_tensors_of (m : model) (sd : checkpoint) : Prop :=
  forall name, assoc name (m_state m) <> None ->
    exists t, getitem sd (VStr name) = Ok (VLeaf t) /\
              assoc name (m_state m) = Some t.

(** The forward pass [f] ran the model [m] on the images of batch [i] of
    the loader [l]. *)
Definition forward_of_batch (w : World) (m : model) (l : loader)
    (i : nat) (f : model * nat) : Prop :=
  fst f = m /\ exists b, loader_batch w l i = Ok b /\ snd f = fst b.

Definition is_str (k : scalar) : bool :=
  match k with SStr _ => true | _ => false end.

Definition keys {V} (d : list (scalar * V)) : list scalar := map fst d.

(** The operation at which a run stopped, with its exception. *)
Fixpoint failure (t : trace) : option (call * exn) :=
  match t with
  | [] => None
  | ev :: t' =>
      match ev_exn ev with
      | Some e => Some (ev_call ev, e)
      | None => failure t'
      end
  end.


(** The bundle has an entry for each of the given keys. *)
Definition has_keys (b : bundle) (ks : list string) : Prop :=
  exists d, b = VDict d /\ forallb (fun k => dict_mem d (SStr k)) ks = true.

End Observe.

(** ** Worlds in which a run fails *)

Module Cases.
Import Py Lib Script Notebooks Observe.



(** The download of the ChipNet notebook fails. *)
Definition offline_world : World :=
  with_download Sample.world
    (fun _ => Raise (Exn "URLError" "Temporary failure in name resolution")).

End Cases.

(** ** Reasoning about runs *)

Module Facts.
Import Py Lib Script Notebooks Observe.

Lemma bind_ok {A B} (m : M A) (f : A -> M B) w t b :
  bind m f w = (t, Ok b) ->
  exists a t1 t2, m w = (t1, Ok a) /\ f a w = (t2, Ok b) /\ t = t1 ++ t2.
Proof.
  unfold bind. destruct (m w) as [t1 [a|e]]; [|intros H; discriminate H].
  destruct (f a w) as [t2 r] eqn:E. intros H. inversion H; subst.
  exists a, t1, t2. repeat split; (assumption || reflexivity).
Qed.

Lemma perform_ok {A} c (r : World -> result A) w t a :
  perform c r w = (t, Ok a) -> r w = Ok a /\ t = [Ev c None].
Proof.
  unfold perform. destruct (r w); intros H; inversion H; auto.
Qed.

Lemma ret_ok {A} (a b : A) w t : ret a w = (t, Ok b) -> a = b /\ t = [].
Proof. unfold ret. intros H; inversion H; auto. Qed.

Lemma succeeds_run {A} (m : M A) w :
  succeeds m w -> exists t a, m w = (t, Ok a) /\ trace_of m w = t.
Proof.
  unfold succeeds, outcome, trace_of. intros [a H].
  destruct (m w) as [t r]. simpl in *. subst. eauto.
Qed.

Lemma succeeds_void {A} (m : M A) w : succeeds (void m) w -> succeeds m w.
Proof.
  unfold succeeds, outcome, void, bind. destruct (m w) as [t [a|e]]; simpl.
  - eauto.
  - intros [a H]. discriminate.
Qed.

Lemma trace_of_void {A} (m : M A) w : trace_of (void m) w = trace_of m w.
Proof.
  unfold trace_of, void, bind, ret. destruct (m w) as [t [a|e]]; simpl; auto.
  apply app_nil_r.
Qed.

Lemma select_app {X} (f : call -> option X) t1 t2 :
  select f (t1 ++ t2) = select f t1 ++ select f t2.
Proof.
  induction t1 as [|ev t1 IH]; simpl; auto.
  destruct (f (ev_call ev)); simpl; rewrite IH; auto.
Qed.

Lemma test_loop_calls m l idx : forall preds labels w,
  forallb (fun ev => loop_call (ev_call ev))
          (fst (FT.test_loop m l idx preds labels w)) = true.
Proof.
  induction idx as [|i idx IH]; intros preds labels w; simpl; auto.
  unfold bind, perform.
  destruct (loader_batch w l i) as [b|e]; simpl; auto.
  destruct (forward w m (fst b)) as [y|e]; simpl; auto.
  specialize (IH (preds ++ [Eval.softmax1 y]) (labels ++ [snd b]) w).
  destruct (FT.test_loop m l idx _ _ w) as [t r]. simpl in *. exact IH.
Qed.

Lemma select_loop {X} (f : call -> option X) t :
  (forall c, loop_call c = true -> f c = None) ->
  forallb (fun ev => loop_call (ev_call ev)) t = true ->
  select f t = [].
Proof.
  intros Hf. induction t as [|ev t IH]; simpl; auto.
  intros H. apply andb_prop in H. destruct H as [H1 H2].
  rewrite (Hf _ H1). auto.
Qed.

Lemma test_loop_select {X} (f : call -> option X) m l idx preds labels w t r :
  (forall c, loop_call c = true -> f c = None) ->
  FT.test_loop m l idx preds labels w = (t, r) -> select f t = [].
Proof.
  intros Hf H. apply select_loop; auto.
  pose proof (test_loop_calls m l idx preds labels w) as L.
  rewrite H in L. exact L.
Qed.

Ltac loop_free :=
  let c := fresh "c" in
  intros c; destruct c; simpl; intros; (reflexivity || discriminate).

(** Observations that ignore the test loop lose its part of the trace. *)
Ltac drop_loop R :=
  repeat match goal with
         | |- context [select ?f ?t] =>
             match type of R with
             | FT.test_loop _ _ _ _ _ _ = (t, _) =>
                 rewrite (test_loop_select f _ _ _ _ _ _ _ _ ltac:(loop_free) R)
             end
         end.

(** Take a successful run apart, statement by statement. *)
Ltac unfold_statements H :=
  cbv beta delta
    [subscript python new_loader open_yaml construct load_weights move_to
     loader_of BS.print_size BS.print_batches BS.load_method_config void] in H.

Ltac split_run H :=
  unfold_statements H;
  lazymatch type of H with
  | bind _ _ _ = (_, Ok _) =>
      let a := fresh "x" in
      let t1 := fresh "t" in
      let t2 := fresh "t" in
      let H1 := fresh "R" in
      let H2 := fresh "R" in
      apply bind_ok in H;
      destruct H as (a & t1 & t2 & H1 & H2 & ->);
      split_run H1; cbv beta zeta in H2; split_run H2
  | perform _ _ _ = (_, Ok _) =>
      apply perform_ok in H;
      let E := fresh "E" in destruct H as [E ->]
  | ret _ _ = (_, Ok _) =>
      apply ret_ok in H; destruct H as [<- ->]
  | _ => idtac
  end.

Lemma Ok_inj {A} (a b : A) : Ok a = Ok b -> a = b.
Proof. intros H. inversion H. reflexivity. Qed.

Ltac same_values :=
  repeat match goal with
         | H : Ok _ = Ok ?b |- _ => apply Ok_inj in H; subst b
         end.

(** An expression evaluated twice gave the same value twice. *)
Ltac same_answers :=
  repeat match goal with
         | H1 : ?e = Ok ?a, H2 : ?e = Ok ?b |- _ =>
             tryif constr_eq a b then fail
             else (rewrite H1 in H2; apply Ok_inj in H2; subst b)
         end.

(** From [succeeds nb w] to the answers the world gave along the run. *)
Ltac open_run H nb :=
  apply succeeds_run in H;
  let t := fresh "t" in
  let a := fresh "a" in
  destruct H as (t & a & H & ->);
  unfold nb in H; split_run H; same_values.

Ltac each_notebook H :=
  match goal with
  | I : In _ notebooks |- _ =>
      destruct I as [<-|[<-|[<-|[]]]];
      apply succeeds_void in H; rewrite ?trace_of_void
  end.

Lemma sample_ft_succeeds : succeeds FT.notebook Sample.world.
Proof. unfold succeeds. eexists. reflexivity. Qed.

Lemma sample_cn_succeeds : succeeds CN.notebook Sample.world.
Proof. unfold succeeds. eexists. reflexivity. Qed.

Lemma sample_bs_succeeds : succeeds BS.notebook Sample.world.
Proof. unfold succeeds. eexists. reflexivity. Qed.

Lemma str_keys_ok {L} (d : list (scalar * pyval L)) : forall kw,
  str_keys d = Ok kw -> d = map (fun kv => (SStr (fst kv), snd kv)) kw.
Proof.
  induction d as [|[k v] d IH]; simpl; intros kw H.
  - apply Ok_inj in H. subst. reflexivity.
  - destruct k; try discriminate H.
    destruct (str_keys d) as [kw'|e]; [|discriminate H].
    apply Ok_inj in H. subst. simpl. f_equal. apply IH. reflexivity.
Qed.

Lemma unpack_kwargs_ok (v : yaml) kw :
  unpack_kwargs v = Ok kw -> v = as_mapping kw.
Proof.
  destruct v; simpl; try discriminate.
  intros H. unfold as_mapping. f_equal. apply str_keys_ok. exact H.
Qed.

Lemma update_ok {L} (target other out : pyval L) :
  update target other = Ok out ->
  exists d d', target = VDict d /\ dict_update d other = Ok d' /\ out = VDict d'.
Proof.
  destruct target; simpl; try discriminate.
  destruct (dict_update d other) as [d'|e] eqn:E; [|discriminate].
  intros H. apply Ok_inj in H. subst. eauto.
Qed.

Lemma setitem_str_ok {L} (c : pyval L) k v out :
  setitem_str c k v = Ok out ->
  exists d, c = VDict d /\ out = VDict (dict_set d (SStr k) v).
Proof.
  destruct c; simpl; try discriminate.
  intros H. apply Ok_inj in H. subst. eauto.
Qed.

Lemma assert_ok (b : bool) e (u : unit) :
  (if b then Ok tt else Raise e) = Ok u -> b = true.
Proof. destruct b; [reflexivity|discriminate]. Qed.












Lemma getitem_str_ok {L} (c : pyval L) k v :
  getitem c (VStr k) = Ok v ->
  exists d, c = VDict d /\ dict_get d (SStr k) = Some v.
Proof.
  destruct c as [s|l|d|x]; simpl; try discriminate.
  - destruct s; discriminate.
  - destruct (dict_get d (SStr k)) as [v'|] eqn:E; [|discriminate].
    intros H. apply Ok_inj in H. subst. eauto.
Qed.


(** Keys: [scalar_eq] is an equivalence. *)



Lemma scalar_eq_refl a : scalar_eq a a = true.
Proof.
  destruct a; unfold scalar_eq; cbn [num_of];
    first [apply Qeq_bool_refl | apply String.eqb_refl | reflexivity].
Qed.







Lemma serves_dataset_key b split l :
  getitem b (VStr (split ++ "_dataset")) = Ok (ld_dataset l) ->
  getitem b (VStr (split ++ "_sampler")) = Ok (ld_sampler l) ->
  serves_split b split l.
Proof. unfold serves_split. auto. Qed.

Lemma serves_split_key b split l :
  getitem b (VStr split) = Ok (ld_dataset l) ->
  getitem b (VStr (split ++ "_sampler")) = Ok (ld_sampler l) ->
  serves_split b split l.
Proof. unfold serves_split. auto. Qed.

(** *** The evaluation cell in exact real arithmetic *)

Section Softmax.
Import Eval.
Local Open Scope R_scope.

Lemma argmax_from_monotone (f : R -> R) :
  (forall x y, x < y <-> f x < f y) ->
  forall l best_i best i,
    argmax_from best_i (f best) i (map f l) = argmax_from best_i best i l.
Proof.
  intros Hf. induction l as [|x l IH]; intros best_i best i; simpl; auto.
  destruct (Rlt_dec (f best) (f x)) as [H|H], (Rlt_dec best x) as [H'|H'];
    auto; exfalso.
  - apply H'. apply (proj2 (Hf best x)). exact H.
  - apply H. apply (proj1 (Hf best x)). exact H'.
Qed.

Lemma sum_exp_nonneg l : 0 <= fold_right Rplus 0 (map exp l).
Proof.
  induction l as [|x l IH]; simpl.
  - lra.
  - pose proof (exp_pos x). lra.
Qed.

Lemma sum_exp_pos x l : 0 < fold_right Rplus 0 (map exp (x :: l)).
Proof.
  simpl. pose proof (exp_pos x). pose proof (sum_exp_nonneg l). lra.
Qed.

Lemma scaled_exp_increasing total :
  0 < total -> forall x y, x < y <-> exp x / total < exp y / total.
Proof.
  intros T x y. unfold Rdiv.
  assert (I : 0 < / total) by (apply Rinv_0_lt_compat; exact T).
  split; intros H.
  - apply Rmult_lt_compat_r; [exact I|]. apply exp_increasing. exact H.
  - apply exp_lt_inv. apply (Rmult_lt_reg_r (/ total)); assumption.
Qed.

(** Softmax keeps the place of the first greatest entry of a row. *)
Lemma argmax_softmax_row row : argmax_row (softmax_row row) = argmax_row row.
Proof.
  destruct row as [|x l]; [reflexivity|].
  unfold softmax_row.
  set (total := fold_right Rplus 0 (map exp (x :: l))).
  assert (T : 0 < total) by apply sum_exp_pos.
  cbn [map argmax_row]. f_equal.
  apply (argmax_from_monotone (fun v => exp v / total)).
  apply scaled_exp_increasing. exact T.
Qed.

Lemma argmax1_softmax1 rows : argmax1 (softmax1 rows) = argmax1 rows.
Proof.
  induction rows as [|row rows IH]; simpl; auto.
  rewrite argmax_softmax_row, IH. reflexivity.
Qed.

(** With real-valued logits the score of the evaluation cell is the one
    it would compute from the logits themselves. *)
Lemma score_of_softmax logits valid_labels :
  score_of (map softmax1 logits) valid_labels = score_of logits valid_labels.
Proof.
  unfold score_of, np_concatenate.
  destruct logits as [|b bs]; [reflexivity|].
  change (map softmax1 (b :: bs)) with (softmax1 b :: map softmax1 bs).
  cbv iota beta.
  replace (concat (softmax1 b :: map softmax1 bs))
    with (softmax1 (concat (b :: bs))).
  - rewrite argmax1_softmax1. reflexivity.
  - unfold softmax1. rewrite concat_map. reflexivity.
Qed.
End Softmax.

(** What the test loop collects: the softmax of the logits of every batch,
    and the labels of every batch, in order. *)
Lemma test_loop_collects m l idx : forall preds labels w t r,
  FT.test_loop m l idx preds labels w = (t, Ok r) ->
  exists logits ls,
    fst r = preds ++ map Eval.softmax1 logits /\ snd r = labels ++ ls /\
    length logits = length idx.
Proof.
  induction idx as [|i idx IH]; intros preds labels w t r H.
  - apply (@ret_ok _ (preds, labels) r w t) in H. destruct H as [<- _].
    exists [], []. simpl. rewrite !app_nil_r. repeat split.
  - cbn [FT.test_loop] in H. split_run H.
    match goal with R : FT.test_loop _ _ _ _ _ _ = _ |- _ =>
      destruct (IH _ _ _ _ _ R) as (logits & ls & P & Q & N) end.
    match goal with y : list (list R), b : (nat * list nat)%type |- _ =>
      exists (y :: logits), (snd b :: ls) end.
    rewrite P, Q, <- !app_assoc. simpl. repeat split. congruence.
Qed.

(** The score of a FactorTransfer run is the score of the collected
    batches; with real-valued logits it is also the score of the logits
    without the softmax. *)
Lemma factor_transfer_score w :
  succeeds FT.notebook w ->
  exists logits labels,
    outcome FT.notebook w = Eval.score_of (map Eval.softmax1 logits) labels /\
    outcome FT.notebook w = Eval.score_of logits labels.
Proof.
  intros H. apply succeeds_run in H. destruct H as (t & score & E & _).
  unfold outcome. rewrite E. cbn [snd].
  unfold FT.notebook in E. split_run E. same_values.
  match goal with R : FT.test_loop _ _ _ _ _ _ = _ |- _ =>
    destruct (test_loop_collects _ _ _ _ _ _ _ _ R) as (logits & ls & P & Q & _) end.
  simpl in P, Q. exists logits, ls.
  assert (S : Eval.score_of (map Eval.softmax1 logits) ls = Ok score).
  { unfold Eval.score_of. rewrite <- P, <- Q.
    repeat match goal with
           | G : ?e = Ok _ |- context [?e] => rewrite G
           end.
    reflexivity. }
  split.
  - symmetry. exact S.
  - rewrite <- score_of_softmax. symmetry. exact S.
Qed.

(** *** The model on small inputs *)

Example true_is_the_key_one :
  dict_get [(SInt 1, "one")] (SBool true) = Some "one" /\
  dict_get [(SInt 1, "one")] (SFloat (2 # 2)) = Some "one" /\
  dict_get [(SInt 1, "one")] (SStr "1") = None.
Proof. repeat split. Qed.

Example update_keeps_places :
  dict_merge [(SStr "a", 1%Z); (SStr "b", 2%Z)] [(SStr "b", 3%Z); (SStr "c", 4%Z)]
  = [(SStr "a", 1%Z); (SStr "b", 3%Z); (SStr "c", 4%Z)].
Proof. reflexivity. Qed.

Example update_from_pairs :
  dict_update (L := Empty_set) []
    (VList [VList [VStr "a"; VInt 1]; VStr "bc"])
  = Ok [(SStr "a", VInt 1); (SStr "b", VStr "c")].
Proof. reflexivity. Qed.

Example update_from_a_number_raises :
  is_ok (update (L := Empty_set) (VDict []) (VInt 5)) = false.
Proof. reflexivity. Qed.

Example membership_in_a_list :
  contains yaml_leaf_eq (VList [VInt 1; VDict [(SStr "W_BITS", VInt 4)]]) (VBool true)
  = Ok true.
Proof. reflexivity. Qed.

Example strict_load_rejects_a_missing_key :
  is_ok (load_state_dict (Model "resnet50" Sample.state "cpu" true)
           (VDict [(SStr "conv1.weight", VLeaf (Tensor [64; 3; 3; 3]%nat 10))]))
  = false.
Proof. reflexivity. Qed.

Example strict_load_rejects_a_wrong_shape :
  is_ok (load_state_dict (Model "fc" [("fc.bias", Tensor [100]%nat 0)] "cpu" true)
           (VDict [(SStr "fc.bias", VLeaf (Tensor [10]%nat 1))]))
  = false.
Proof. reflexivity. Qed.

(** With an unsupported weight budget the BitSplit notebook stops at its
    [assert]; no compression object is built. *)
Example unsupported_budget_run :
  outcome BS.notebook Sample.unsupported_world =
    Raise (AssertionError "given weight budget not supported") /\
  constructed (trace_of BS.notebook Sample.unsupported_world) = [].
Proof. split; reflexivity. Qed.


End Facts.

(** ** The claims *)

Module Claims.
Import Py Lib Script Notebooks Observe Facts.






(** C3, as stated, fails: the BitSplit notebook does not hand the mapping
    it parsed to the constructor. *)
Lemma bitsplit_rewrites_config :
  ~ (forall nb w, In nb notebooks -> succeeds nb w ->
       config_passed_unchanged w (trace_of nb w)).
Proof.
  intros H.
  destruct (H (void BS.notebook) Sample.world) as (text & c & Ht & Hc & Hy).
  - simpl. auto.
  - unfold succeeds. exists tt. reflexivity.
  - vm_compute in Ht. vm_compute in Hc.
    injection Ht as <-. injection Hc as <-.
    vm_compute in Hy. discriminate Hy.
Qed.

(** C3, amended.  Every notebook parses one YAML file with
    [yaml.safe_load].  The FactorTransfer and the ChipNet notebook unpack
    the mapping it returns, unchanged, into the constructor's keyword
    arguments.  The BitSplit notebook asserts that the ['W_BUDGET'] entry of
    [config['GENERAL']] is among [config['W_ARGS']], and passes
    [config['GENERAL']] updated with that entry of [config['W_ARGS']] and
    with ['CALIB_BATCHES'] set to 2. *)
Theorem configuration_to_constructor :
  (forall w, succeeds FT.notebook w ->
     config_passed_unchanged w (trace_of FT.notebook w)) /\
  (forall w, succeeds CN.notebook w ->
     config_passed_unchanged w (trace_of CN.notebook w)) /\
  (forall w, succeeds BS.notebook w ->
     exists text config general budget w_args selected merged c,
       parsed_texts (trace_of BS.notebook w) = [text] /\
       yaml_safe_load w text = Ok config /\
       getitem config (VStr "GENERAL") = Ok (VDict general) /\
       getitem (VDict general) (VStr "W_BUDGET") = Ok budget /\
       getitem config (VStr "W_ARGS") = Ok w_args /\
       contains yaml_leaf_eq w_args budget = Ok true /\
       getitem w_args budget = Ok selected /\
       dict_update general selected = Ok merged /\
       constructed (trace_of BS.notebook w) = [c] /\
       as_mapping (c_kwargs c) =
         VDict (dict_set merged (SStr "CALIB_BATCHES") (VInt 2))).
Proof.
  split; [|split]; intros w H.
  - open_run H FT.notebook.
    unfold config_passed_unchanged, parsed_texts, constructed.
    rewrite !select_app. drop_loop R2. simpl.
    do 2 eexists. repeat split. simpl.
    match goal with Y : yaml_safe_load w _ = Ok _ |- _ => rewrite Y end.
    f_equal. apply unpack_kwargs_ok. assumption.
  - open_run H CN.notebook.
    unfold config_passed_unchanged. simpl.
    do 2 eexists. repeat split. simpl.
    match goal with Y : yaml_safe_load w _ = Ok _ |- _ => rewrite Y end.
    f_equal. apply unpack_kwargs_ok. assumption.
  - open_run H BS.notebook. simpl.
    match goal with U : update _ _ = Ok _ |- _ =>
      apply update_ok in U; destruct U as (general & merged & -> & U & ->) end.
    match goal with S : setitem_str _ _ _ = Ok _ |- _ =>
      apply setitem_str_ok in S; destruct S as (d & D & ->); injection D as <- end.
    match goal with A : (if _ then _ else _) = Ok _ |- _ =>
      apply assert_ok in A; subst end.
    match goal with K : unpack_kwargs _ = Ok _ |- _ =>
      apply unpack_kwargs_ok in K end.
    same_answers.
    do 8 eexists. repeat split; try eassumption. symmetry. assumption.
Qed.

Lemma configuration_to_constructor_witness :
  config_passed_unchanged Sample.world (trace_of FT.notebook Sample.world) /\
  config_passed_unchanged Sample.world (trace_of CN.notebook Sample.world) /\
  exists text config general budget w_args selected merged c,
    parsed_texts (trace_of BS.notebook Sample.world) = [text] /\
    yaml_safe_load Sample.world text = Ok config /\
    getitem config (VStr "GENERAL") = Ok (VDict general) /\
    getitem (VDict general) (VStr "W_BUDGET") = Ok budget /\
    getitem config (VStr "W_ARGS") = Ok w_args /\
    contains yaml_leaf_eq w_args budget = Ok true /\
    getitem w_args budget = Ok selected /\
    dict_update general selected = Ok merged /\
    constructed (trace_of BS.notebook Sample.world) = [c] /\
    as_mapping (c_kwargs c) =
      VDict (dict_set merged (SStr "CALIB_BATCHES") (VInt 2)).
Proof.
  destruct configuration_to_constructor as (ft & cn & bs).
  split; [|split].
  - apply (ft Sample.world). unfold succeeds. eexists. reflexivity.
  - apply (cn Sample.world). unfold succeeds. eexists. reflexivity.
  - apply (bs Sample.world). unfold succeeds. eexists. reflexivity.
Defined.








(** C7.  A notebook that runs to its end has called
    [DatasetFactory.create_dataset] once, with the splits
    ['train', 'val', 'test'] and a validation fraction strictly between 0
    and 1; it has then built exactly three loaders, one on each split of
    the returned bundle and all of one batch size; and its compression
    object has received them as the mapping 'train', 'val', 'test'. *)
Theorem one_loader_per_split :
  forall nb w, In nb notebooks -> succeeds nb w ->
    dataset_pipeline w (trace_of nb w).
Proof.
  intros nb w I H. each_notebook H.
  - open_run H FT.notebook.
    unfold dataset_pipeline, data_calls.
    rewrite !select_app. drop_loop R2. simpl.
    do 6 eexists. split; [reflexivity|].
    repeat split; try reflexivity; try eassumption;
      apply serves_dataset_key; assumption.
  - open_run H CN.notebook.
    unfold dataset_pipeline. simpl.
    do 6 eexists. split; [reflexivity|].
    repeat split; try reflexivity; try eassumption;
      apply serves_dataset_key; assumption.
  - open_run H BS.notebook.
    unfold dataset_pipeline. simpl.
    do 6 eexists. split; [reflexivity|].
    repeat split; try reflexivity; try eassumption;
      apply serves_split_key; assumption.
Qed.

Lemma one_loader_per_split_witness :
  dataset_pipeline Sample.world (trace_of (void CN.notebook) Sample.world).
Proof.
  apply (one_loader_per_split (void CN.notebook) Sample.world).
  - simpl. auto.
  - unfold succeeds. exists tt. reflexivity.
Defined.

(** C8.  In a ChipNet notebook that runs to its end, the state dict
    downloaded by [load_state_dict_from_url] is bound and never used: no
    operation of the run loads weights into a model or moves one, the model
    given to the [ChipNet] constructor is the very model
    [ModelsFactory.create_model] returned, and it is the same whatever the
    download answers. *)
Theorem downloaded_weights_are_unused :
  forall w, succeeds CN.notebook w ->
    exists m weights c,
      create_model w CN.model_call = Ok m /\
      load_state_dict_from_url w CN.pretrained_weights = Ok weights /\
      model_updates (trace_of CN.notebook w) = [] /\
      constructed (trace_of CN.notebook w) = [c] /\
      c_models c = [m] /\
      forall answer, is_ok (answer CN.pretrained_weights) = true ->
        constructed (trace_of CN.notebook (with_download w answer)) = [c].
Proof.
  intros w H. open_run H CN.notebook.
  do 3 eexists. repeat split; try eassumption; try reflexivity.
  intros answer A.
  unfold trace_of, CN.notebook, open_yaml, construct, subscript, python,
    new_loader, bind, perform, ret.
  cbn [with_download read_text yaml_safe_load create_model
       load_state_dict_from_url create_dataset init_compressor compress_model].
  destruct (answer CN.pretrained_weights); [|discriminate A].
  repeat (match goal with
          | E : ?e = Ok _ |- context [?e] => rewrite E
          end; cbn beta iota).
  reflexivity.
Qed.

Lemma downloaded_weights_are_unused_witness :
  exists m weights c,
    create_model Sample.world CN.model_call = Ok m /\
    load_state_dict_from_url Sample.world CN.pretrained_weights = Ok weights /\
    model_updates (trace_of CN.notebook Sample.world) = [] /\
    constructed (trace_of CN.notebook Sample.world) = [c] /\
    c_models c = [m] /\
    forall answer, is_ok (answer CN.pretrained_weights) = true ->
      constructed (trace_of CN.notebook (with_download Sample.world answer)) = [c].
Proof.
  apply (downloaded_weights_are_unused Sample.world).
  unfold succeeds. eexists. reflexivity.
Defined.



End Claims.

(** ** Further properties of the notebooks *)

Module More.
Import Py Lib Script Notebooks Observe Facts.

(** *** What [load_state_dict] leaves in the model *)

Lemma dict_get_in {V} (d : list (scalar * V)) k v :
  dict_get d k = Some v -> exists k', In (k', v) d /\ scalar_eq k' k = true.
Proof.
  induction d as [|[k0 v0] d IH]; simpl; [discriminate|].
  destruct (scalar_eq k0 k) eqn:E.
  - intros H. injection H as <-. exists k0. auto.
  - intros H. destruct (IH H) as (k' & I & S). exists k'. auto.
Qed.

Lemma assoc_loaded_state m d name :
  assoc name (loaded_state m d) =
    match assoc name (m_state m) with
    | None => None
    | Some t0 =>
        match dict_get d (SStr name) with
        | Some (VLeaf t) => Some t
        | _ => Some t0
        end
    end.
Proof.
  unfold loaded_state. induction (m_state m) as [|[k t0] l IH]; simpl; auto.
  destruct (dict_get d (SStr k)) as [[| | |t]|] eqn:G; simpl;
    destruct (String.eqb_spec k name) as [->|N]; auto;
    rewrite G; reflexivity.
Qed.

Lemma load_state_dict_result m sd m' :
  load_state_dict m sd = Ok m' ->
  holds_tensors_of m' sd /\
  map fst (m_state m') = map fst (m_state m) /\
  m_device m' = m_device m /\ m_training m' = m_training m /\
  m_arch m' = m_arch m.
Proof.
  unfold load_state_dict. destruct sd as [s|l|d|x]; try discriminate.
  destruct (state_dict_matches m d) eqn:E; [|discriminate].
  intros H. apply Ok_inj in H. subst m'. simpl.
  repeat split.
  - intros name. cbn [m_state]. rewrite assoc_loaded_state.
    destruct (assoc name (m_state m)) as [t0|] eqn:A; [intros _|congruence].
    unfold state_dict_matches in E. apply andb_prop in E. destruct E as [E1 E2].
    rewrite forallb_forall in E1, E2.
    assert (I : exists t1, In (name, t1) (m_state m)).
    { clear - A. induction (m_state m) as [|[k t1] l IH]; simpl in *; [discriminate|].
      destruct (String.eqb_spec k name) as [->|N]; eauto.
      destruct (IH A) as [t2 I]. eauto. }
    destruct I as [t1 I]. specialize (E2 _ I).
    unfold key_present, dict_mem in E2. cbn [fst] in E2.
    revert E2. unfold getitem, as_key, VStr, checkpoint.
    match goal with
    | |- context [@dict_get ?V d (SStr name)] =>
        destruct (@dict_get V d (SStr name)) as [v|] eqn:G; [intros _|discriminate]
    end.
    destruct (dict_get_in _ _ _ G) as (k' & I' & S).
    specialize (E1 _ I'). unfold entry_fits in E1.
    destruct k' as [| | | |name']; try discriminate E1.
    destruct v as [| | |t]; try discriminate E1.
    exists t. split; reflexivity.
  - unfold loaded_state. rewrite map_map. apply map_ext.
    intros [k t0]. simpl. unfold checkpoint.
    match goal with
    | |- context [@dict_get ?V d (SStr k)] =>
        destruct (@dict_get V d (SStr k)) as [[| | |t]|]; reflexivity
    end.
Qed.

Lemma holds_tensors_eval_mode m sd :
  holds_tensors_of m sd -> holds_tensors_of (eval_mode m) sd.
Proof. exact (fun H => H). Qed.

(** *** The test loop *)

Lemma test_loop_visits m l idx : forall preds labels w t r,
  FT.test_loop m l idx preds labels w = (t, Ok r) ->
  fetched t = map (pair l) idx /\
  Forall2 (forward_of_batch w m l) idx (forwards t).
Proof.
  induction idx as [|i idx IH]; intros preds labels w t r H.
  - apply (@ret_ok _ (preds, labels) r w t) in H. destruct H as [_ ->].
    split; constructor.
  - cbn [FT.test_loop] in H. split_run H.
    match goal with R : FT.test_loop _ _ _ _ _ _ = _ |- _ =>
      destruct (IH _ _ _ _ _ R) as [F G] end.
    unfold fetched, forwards in *. rewrite !select_app. simpl.
    rewrite F. split; [reflexivity|].
    constructor; [|exact G].
    split; [reflexivity|]. eexists. split; [eassumption|reflexivity].
Qed.

Lemma np_concatenate_ok {A} (arrays : list (list A)) out :
  Eval.np_concatenate arrays = Ok out -> arrays <> [].
Proof. destruct arrays; [discriminate|]. intros _. discriminate. Qed.

Lemma forall2_length {A B} (P : A -> B -> Prop) l l' :
  Forall2 P l l' -> length l' = length l.
Proof. induction 1; simpl; congruence. Qed.

Lemma getitem_dict_mem {L} (d : list (scalar * pyval L)) k v :
  getitem (VDict d) (VStr k) = Ok v -> dict_mem d (SStr k) = true.
Proof.
  intros H. apply getitem_str_ok in H. destruct H as (d' & E & G).
  injection E as <-. unfold dict_mem. rewrite G. reflexivity.
Qed.

(** The entries a notebook read from the bundle [b] are keys of [b]. *)
Ltac keys_read b :=
  match goal with
  | G : getitem b (VStr _) = Ok _ |- _ =>
      let d := fresh "d" in
      destruct (getitem_str_ok _ _ _ G) as (d & -> & _);
      repeat match goal with
             | G' : getitem (VDict d) (VStr _) = Ok _ |- _ =>
                 apply getitem_dict_mem in G'
             end;
      exists d; split; [reflexivity|]; cbn [forallb];
      repeat match goal with
             | M : dict_mem d _ = true |- _ => rewrite M; clear M
             end;
      reflexivity
  end.

(** Keys under [dict.update] and item assignment. *)

Lemma scalar_eq_str s k : scalar_eq (SStr s) k = true -> k = SStr s.
Proof.
  destruct k; unfold scalar_eq; cbn [num_of]; try discriminate.
  intros H. apply String.eqb_eq in H. subst. reflexivity.
Qed.

Lemma keys_dict_set_old {V} (d : list (scalar * V)) k v k0 :
  In k0 (keys d) -> In k0 (keys (dict_set d k v)).
Proof.
  unfold keys. induction d as [|[k1 v1] d IH]; simpl; [tauto|].
  destruct (scalar_eq k1 k); simpl; tauto.
Qed.

Lemma keys_dict_set_new {V} (d : list (scalar * V)) k v :
  exists k', In k' (keys (dict_set d k v)) /\ scalar_eq k' k = true.
Proof.
  unfold keys. induction d as [|[k1 v1] d IH]; simpl.
  - exists k. split; [auto|apply scalar_eq_refl].
  - destruct (scalar_eq k1 k) eqn:E; simpl.
    + exists k1. auto.
    + destruct IH as (k' & I & S). exists k'. auto.
Qed.

Lemma keys_dict_merge_old {V} (e : list (scalar * V)) : forall d k0,
  In k0 (keys d) -> In k0 (keys (dict_merge d e)).
Proof.
  unfold dict_merge. induction e as [|[k v] e IH]; intros d k0 I; simpl; auto.
  apply IH. apply keys_dict_set_old. exact I.
Qed.

Lemma keys_dict_merge_new {V} (e : list (scalar * V)) : forall d k,
  In k (keys e) -> exists k', In k' (keys (dict_merge d e)) /\ scalar_eq k' k = true.
Proof.
  unfold dict_merge. induction e as [|[k1 v1] e IH]; intros d k I; simpl in *;
    [contradiction|].
  destruct I as [<-|I].
  - destruct (keys_dict_set_new d k1 v1) as (k' & I' & S).
    exists k'. split; [|exact S].
    apply (keys_dict_merge_old e). exact I'.
  - apply IH. exact I.
Qed.

Lemma keys_update_pairs {L} (items : list (pyval L)) : forall d d' k0,
  update_pairs d items = Ok d' -> In k0 (keys d) -> In k0 (keys d').
Proof.
  induction items as [|item items IH]; intros d d' k0 H I; simpl in H.
  - apply Ok_inj in H. subst. exact I.
  - destruct (as_pair item) as [[k v]|e]; [|discriminate H].
    apply (IH _ _ _ H). apply keys_dict_set_old. exact I.
Qed.

Lemma keys_dict_update {L} (d : list (scalar * pyval L)) other d' k0 :
  dict_update d other = Ok d' -> In k0 (keys d) -> In k0 (keys d').
Proof.
  destruct other as [s|items|e|x]; simpl; try discriminate.
  - destruct s as [| | | |str]; try discriminate.
    destruct str; [|discriminate]. intros H. apply Ok_inj in H. subst. auto.
  - apply keys_update_pairs.
  - intros H. apply Ok_inj in H. subst. apply keys_dict_merge_old.
Qed.

Lemma keys_as_mapping (kw : list (string * yaml)) k :
  In k (keys (map (fun kv => (SStr (fst kv), snd kv)) kw)) -> is_str k = true.
Proof.
  unfold keys. rewrite map_map. simpl. rewrite in_map_iff.
  intros (kv & <- & _). reflexivity.
Qed.

(** *** FactorTransfer.ipynb *)

(** X1.  A FactorTransfer run that ends normally has fetched the batches
    0, 1, ..., [len(test_loader) - 1] of the test loader it gave to the
    compression object, in this order, and has run one forward pass on the
    images of each, all on one model; and the loader was not empty. *)
Theorem test_loop_covers_the_test_loader :
  forall w, succeeds FT.notebook w ->
    exists c test_loader student,
      constructed (trace_of FT.notebook w) = [c] /\
      assoc "test" (c_loaders c) = Some test_loader /\
      fetched (trace_of FT.notebook w) =
        map (pair test_loader) (seq 0 (loader_len w test_loader)) /\
      Forall2 (forward_of_batch w student test_loader)
        (seq 0 (loader_len w test_loader)) (forwards (trace_of FT.notebook w)) /\
      length (forwards (trace_of FT.notebook w)) = loader_len w test_loader /\
      (0 < loader_len w test_loader)%nat.
Proof.
  intros w H. open_run H FT.notebook.
  match goal with R : FT.test_loop _ _ _ _ _ _ = _ |- _ =>
    destruct (test_loop_visits _ _ _ _ _ _ _ _ R) as [F G];
    destruct (test_loop_collects _ _ _ _ _ _ _ _ R) as (logits & ls & P & _ & N)
  end.
  match goal with C : Eval.np_concatenate (fst _) = Ok _ |- _ =>
    apply np_concatenate_ok in C; rewrite P in C end.
  rewrite length_seq in N.
  unfold constructed, fetched, forwards in *.
  rewrite !select_app. drop_loop R2. simpl. rewrite !app_nil_r.
  do 3 eexists. split; [reflexivity|]. split; [reflexivity|].
  split; [exact F|]. split; [exact G|]. split.
  - rewrite (forall2_length _ _ _ G). apply length_seq.
  - destruct logits; [contradiction|]. rewrite <- N. simpl. lia.
Qed.

Lemma test_loop_covers_the_test_loader_witness :
  exists c test_loader student,
    constructed (trace_of FT.notebook Sample.world) = [c] /\
    assoc "test" (c_loaders c) = Some test_loader /\
    fetched (trace_of FT.notebook Sample.world) =
      map (pair test_loader) (seq 0 (loader_len Sample.world test_loader)) /\
    Forall2 (forward_of_batch Sample.world student test_loader)
      (seq 0 (loader_len Sample.world test_loader))
      (forwards (trace_of FT.notebook Sample.world)) /\
    length (forwards (trace_of FT.notebook Sample.world)) =
      loader_len Sample.world test_loader /\
    (0 < loader_len Sample.world test_loader)%nat.
Proof.
  apply (test_loop_covers_the_test_loader Sample.world).
  unfold succeeds. eexists. reflexivity.
Defined.

(** X2.  In a FactorTransfer run that ends normally the teacher given to
    the [FactorTransfer] constructor holds, under every name of its state,
    the tensor of the ['state_dict'] of
    [./resnet50_cifar100_pretrained.pth], while the student is given with
    the state [get_resnet_model] created it with; both were moved to the
    same device, ['cuda:0'] when CUDA is available and ['cpu'] otherwise. *)
Theorem teacher_is_loaded_student_is_fresh :
  forall w, succeeds FT.notebook w ->
    exists student0 loaded weights c teacher student,
      create_model w (ModelArgs "get_resnet_model" "resnet18" 100 32 (Some false))
        = Ok student0 /\
      torch_load w [Text "./resnet50_cifar100_pretrained.pth"] None = Ok loaded /\
      getitem loaded (VStr "state_dict") = Ok weights /\
      constructed (trace_of FT.notebook w) = [c] /\
      c_models c = [teacher; student] /\
      holds_tensors_of teacher weights /\
      m_state student = m_state student0 /\
      m_device teacher = device_of w /\ m_device student = device_of w.
Proof.
  intros w H. open_run H FT.notebook.
  unfold constructed. rewrite !select_app. drop_loop R2. simpl.
  match goal with
  | L : load_state_dict (to_device _ _) _ = Ok ?m |- _ =>
      destruct (load_state_dict_result _ _ _ L) as (T & _ & D & _)
  end.
  do 6 eexists.
  split; [eassumption|]. split; [eassumption|]. split; [eassumption|].
  split; [reflexivity|]. split; [reflexivity|]. split; [exact T|].
  split; [reflexivity|]. split; [|reflexivity].
  rewrite D. reflexivity.
Qed.

Lemma teacher_is_loaded_student_is_fresh_witness :
  exists student0 loaded weights c teacher student,
    create_model Sample.world
      (ModelArgs "get_resnet_model" "resnet18" 100 32 (Some false)) = Ok student0 /\
    torch_load Sample.world [Text "./resnet50_cifar100_pretrained.pth"] None
      = Ok loaded /\
    getitem loaded (VStr "state_dict") = Ok weights /\
    constructed (trace_of FT.notebook Sample.world) = [c] /\
    c_models c = [teacher; student] /\
    holds_tensors_of teacher weights /\
    m_state student = m_state student0 /\
    m_device teacher = device_of Sample.world /\
    m_device student = device_of Sample.world.
Proof.
  apply (teacher_is_loaded_student_is_fresh Sample.world).
  unfold succeeds. eexists. reflexivity.
Defined.



(** *** The BitSplit notebook *)

(** X4.  A BitSplit run that ends normally has called [quantizer.test]
    exactly twice, both times on the ['test'] loader it gave to the
    constructor: first on the model it gave to the constructor, then on the
    model [compress_model] returned; the accuracies it ends with are those
    of the second call. *)
Theorem accuracy_before_and_after :
  forall w, succeeds BS.notebook w ->
    exists c res50_model qmodel l,
      constructed (trace_of BS.notebook w) = [c] /\
      c_models c = [res50_model] /\
      assoc "test" (c_loaders c) = Some l /\
      compress_model w c = Ok qmodel /\
      tests (trace_of BS.notebook w) = [(c, res50_model, l); (c, qmodel, l)] /\
      outcome BS.notebook w = test w c qmodel l.
Proof.
  intros w H. pose proof H as S.
  apply succeeds_run in S. destruct S as (t & acc & E & T).
  unfold outcome. rewrite T || rewrite E. clear T.
  unfold trace_of. rewrite E. cbn [fst snd].
  unfold BS.notebook in E. split_run E. same_values.
  repeat match goal with
         | L : match assoc _ _ with Some _ => _ | None => _ end = Ok _ |- _ =>
             simpl in L; apply Ok_inj in L; subst
         end.
  simpl. do 4 eexists.
  split; [reflexivity|]. split; [reflexivity|]. split; [reflexivity|].
  split; [eassumption|]. split; [reflexivity|].
  symmetry. assumption.
Qed.

Lemma accuracy_before_and_after_witness :
  exists c res50_model qmodel l,
    constructed (trace_of BS.notebook Sample.world) = [c] /\
    c_models c = [res50_model] /\
    assoc "test" (c_loaders c) = Some l /\
    compress_model Sample.world c = Ok qmodel /\
    tests (trace_of BS.notebook Sample.world) =
      [(c, res50_model, l); (c, qmodel, l)] /\
    outcome BS.notebook Sample.world = test Sample.world c qmodel l.
Proof.
  apply (accuracy_before_and_after Sample.world).
  unfold succeeds. eexists. reflexivity.
Defined.

(** X5.  In a BitSplit run that ends normally the model given to the
    [BitSplit] constructor holds, under every name of its state, the tensor
    of the ['state_dict'] of [./weights/resnet50_cifar100_pretrained.pth];
    it has the names, the device and the mode [resnet.make_resnet50] gave
    it: the notebook never moves it. *)
Theorem quantized_model_is_the_pretrained_one :
  forall w, succeeds BS.notebook w ->
    exists made checkpoint state c res50_model,
      create_model w BS.model_call = Ok made /\
      torch_load w [Text "./weights/resnet50_cifar100_pretrained.pth"]
        (Some "cuda:0") = Ok checkpoint /\
      getitem checkpoint (VStr "state_dict") = Ok state /\
      constructed (trace_of BS.notebook w) = [c] /\
      c_models c = [res50_model] /\
      holds_tensors_of res50_model state /\
      map fst (m_state res50_model) = map fst (m_state made) /\
      m_device res50_model = m_device made /\
      m_training res50_model = m_training made.
Proof.
  intros w H. open_run H BS.notebook. simpl.
  match goal with
  | L : load_state_dict _ _ = Ok _ |- _ =>
      destruct (load_state_dict_result _ _ _ L) as (T & N & D & M & _)
  end.
  do 5 eexists.
  split; [eassumption|]. split; [eassumption|]. split; [eassumption|].
  split; [reflexivity|]. split; [reflexivity|].
  repeat split; assumption.
Qed.

Lemma quantized_model_is_the_pretrained_one_witness :
  exists made checkpoint state c res50_model,
    create_model Sample.world BS.model_call = Ok made /\
    torch_load Sample.world [Text "./weights/resnet50_cifar100_pretrained.pth"]
      (Some "cuda:0") = Ok checkpoint /\
    getitem checkpoint (VStr "state_dict") = Ok state /\
    constructed (trace_of BS.notebook Sample.world) = [c] /\
    c_models c = [res50_model] /\
    holds_tensors_of res50_model state /\
    map fst (m_state res50_model) = map fst (m_state made) /\
    m_device res50_model = m_device made /\
    m_training res50_model = m_training made.
Proof.
  apply (quantized_model_is_the_pretrained_one Sample.world).
  unfold succeeds. eexists. reflexivity.
Defined.

(** X6.  A BitSplit run reaches its end only if every key of
    [config['GENERAL']] is a string, and, when the entry of
    [config['W_ARGS']] for the weight budget is a mapping, every key of that
    entry too: the keywords of [BitSplit] are unpacked from them. *)
Theorem keywords_are_strings :
  forall w, succeeds BS.notebook w ->
    exists text config general budget w_args selected,
      read_text w "./bitsplit_config.yaml" = Ok text /\
      yaml_safe_load w text = Ok config /\
      getitem config (VStr "GENERAL") = Ok (VDict general) /\
      getitem (VDict general) (VStr "W_BUDGET") = Ok budget /\
      getitem config (VStr "W_ARGS") = Ok w_args /\
      getitem w_args budget = Ok selected /\
      forallb is_str (keys general) = true /\
      forall entries, selected = VDict entries ->
        forallb is_str (keys entries) = true.
Proof.
  intros w H. apply succeeds_run in H. destruct H as (t & a & H & _).
  unfold BS.notebook in H. split_run H. same_values.
  match goal with U : update _ _ = Ok _ |- _ =>
    apply update_ok in U; destruct U as (general & merged & -> & U & ->);
    rename U into UP end.
  match goal with S : setitem_str _ _ _ = Ok _ |- _ =>
    apply setitem_str_ok in S; destruct S as (d & D & ->); injection D as <- end.
  match goal with K : unpack_kwargs _ = Ok _ |- _ =>
    apply unpack_kwargs_ok in K; unfold as_mapping in K; injection K as K;
    rename K into KW end.
  same_answers.
  assert (A : forall k, In k (keys merged) -> is_str k = true).
  { intros k I. eapply keys_as_mapping. rewrite <- KW.
    apply keys_dict_set_old. exact I. }
  do 6 eexists.
  split; [eassumption|]. split; [eassumption|]. split; [eassumption|].
  split; [eassumption|]. split; [eassumption|]. split; [eassumption|].
  split.
  - apply forallb_forall. intros k I. apply A.
    eapply keys_dict_update; eassumption.
  - intros entries ->. apply forallb_forall. intros k I.
    simpl in UP. apply Ok_inj in UP. subst merged.
    destruct (keys_dict_merge_new entries general k I) as (k' & I' & S).
    specialize (A _ I'). destruct k'; try discriminate A.
    apply scalar_eq_str in S. subst. reflexivity.
Qed.

Lemma keywords_are_strings_witness :
  exists text config general budget w_args selected,
    read_text Sample.world "./bitsplit_config.yaml" = Ok text /\
    yaml_safe_load Sample.world text = Ok config /\
    getitem config (VStr "GENERAL") = Ok (VDict general) /\
    getitem (VDict general) (VStr "W_BUDGET") = Ok budget /\
    getitem config (VStr "W_ARGS") = Ok w_args /\
    getitem w_args budget = Ok selected /\
    forallb is_str (keys general) = true /\
    forall entries, selected = VDict entries ->
      forallb is_str (keys entries) = true.
Proof.
  apply (keywords_are_strings Sample.world).
  unfold succeeds. eexists. reflexivity.
Defined.

(** *** All three notebooks *)

(** X7.  The entries each notebook reads from the result of
    [DatasetFactory.create_dataset]: a FactorTransfer or ChipNet run ends
    normally only on a mapping with the keys ['train_dataset'],
    ['val_dataset'], ['test_dataset'] and the three samplers; a BitSplit run
    only on a mapping with the keys ['train'], ['val'], ['test'], the three
    samplers and an ['info'] mapping holding the three sizes. *)
Theorem bundle_entries_each_notebook_reads :
  (forall w, succeeds FT.notebook w ->
     exists b, create_dataset w FT.dataset_call = Ok b /\
       has_keys b ["train_dataset"; "train_sampler"; "val_dataset";
                   "val_sampler"; "test_dataset"; "test_sampler"]) /\
  (forall w, succeeds CN.notebook w ->
     exists b, create_dataset w CN.dataset_call = Ok b /\
       has_keys b ["train_dataset"; "train_sampler"; "val_dataset";
                   "val_sampler"; "test_dataset"; "test_sampler"]) /\
  (forall w, succeeds BS.notebook w ->
     exists b info, create_dataset w BS.dataset_call = Ok b /\
       has_keys b ["info"; "train"; "train_sampler"; "val"; "val_sampler";
                   "test"; "test_sampler"] /\
       getitem b (VStr "info") = Ok info /\
       has_keys info ["train_size"; "val_size"; "test_size"]).
Proof.
  split; [|split]; intros w H.
  - apply succeeds_run in H. destruct H as (t & a & H & _).
    unfold FT.notebook in H. split_run H. same_values.
    match goal with C : create_dataset w _ = Ok ?b |- _ =>
      exists b; split; [exact C|]; clear C; keys_read b end.
  - apply succeeds_run in H. destruct H as (t & a & H & _).
    unfold CN.notebook in H. split_run H. same_values.
    match goal with C : create_dataset w _ = Ok ?b |- _ =>
      exists b; split; [exact C|]; clear C; keys_read b end.
  - apply succeeds_run in H. destruct H as (t & a & H & _).
    unfold BS.notebook in H. split_run H. same_values. same_answers.
    match goal with
    | C : create_dataset w _ = Ok ?b, I : getitem ?b (VStr "info") = Ok ?info |- _ =>
        exists b, info; split; [exact C|]; clear C;
        split; [|split; [exact I|]]
    end.
    + match goal with |- has_keys ?b _ => keys_read b end.
    + match goal with |- has_keys ?info _ => keys_read info end.
Qed.

Lemma bundle_entries_each_notebook_reads_witness :
  (exists b, create_dataset Sample.world FT.dataset_call = Ok b /\
     has_keys b ["train_dataset"; "train_sampler"; "val_dataset";
                 "val_sampler"; "test_dataset"; "test_sampler"]) /\
  (exists b, create_dataset Sample.world CN.dataset_call = Ok b /\
     has_keys b ["train_dataset"; "train_sampler"; "val_dataset";
                 "val_sampler"; "test_dataset"; "test_sampler"]) /\
  (exists b info, create_dataset Sample.world BS.dataset_call = Ok b /\
     has_keys b ["info"; "train"; "train_sampler"; "val"; "val_sampler";
                 "test"; "test_sampler"] /\
     getitem b (VStr "info") = Ok info /\
     has_keys info ["train_size"; "val_size"; "test_size"]).
Proof.
  destruct bundle_entries_each_notebook_reads as (ft & cn & bs).
  split; [|split].
  - apply (ft Sample.world). unfold succeeds. eexists. reflexivity.
  - apply (cn Sample.world). unfold succeeds. eexists. reflexivity.
  - apply (bs Sample.world). unfold succeeds. eexists. reflexivity.
Defined.







(** *** Runs that fail *)

Lemma loop_event_in m l idx preds labels w t r ev :
  FT.test_loop m l idx preds labels w = (t, r) ->
  In ev t -> loop_call (ev_call ev) = true.
Proof.
  intros H I. pose proof (test_loop_calls m l idx preds labels w) as L.
  rewrite H in L. cbn [fst] in L. rewrite forallb_forall in L. exact (L _ I).
Qed.


(** The scrutinee a run is waiting for. *)
Ltac head_of T :=
  lazymatch T with
  | match ?x with _ => _ end => head_of x
  | _ => T
  end.

(** One more answer of the world: the run goes on, or stops there. *)
Ltac run_step E :=
  lazymatch type of E with
  | ?L = _ =>
      lazymatch L with
      | match _ with _ => _ end =>
          let x := head_of L in
          revert E; destruct x eqn:?; intros E; cbv beta iota in E
      end
  end.

Ltac unfold_run E :=
  cbv beta iota zeta delta
    [FT.notebook CN.notebook BS.notebook
     subscript python new_loader open_yaml construct load_weights move_to
     loader_of BS.print_size BS.print_batches BS.load_method_config
     bind perform ret assoc String.eqb Ascii.eqb Bool.eqb] in E.

(** All the runs of a notebook, by the place where they stop. *)
Ltac every_run nb w E :=
  unfold trace_of, outcome in *;
  let t := fresh "t" in
  let r := fresh "r" in
  destruct (nb w) as [t r] eqn:E; cbn [fst snd] in *;
  unfold_run E; repeat run_step E;
  apply pair_equal_spec in E; destruct E as [<- <-].

Lemma failure_app t1 t2 :
  failure (t1 ++ t2) =
    match failure t1 with Some x => Some x | None => failure t2 end.
Proof.
  induction t1 as [|ev t1 IH]; simpl; auto. destruct (ev_exn ev); auto.
Qed.

Lemma failure_in t c e :
  failure t = Some (c, e) -> In (Ev c (Some e)) t.
Proof.
  induction t as [|[c0 x] t IH]; simpl; [discriminate|].
  destruct x as [e0|].
  - intros H. injection H as <- <-. auto.
  - auto.
Qed.

Lemma failure_loop m l idx preds labels w t r c e :
  FT.test_loop m l idx preds labels w = (t, r) ->
  failure t = Some (c, e) -> loop_call c = true.
Proof.
  intros R F. apply failure_in in F.
  exact (loop_event_in _ _ _ _ _ _ _ _ _ R F).
Qed.

(** Where the run of [H] stopped. *)
Ltac find_failure H :=
  cbn [failure app ev_exn ev_call] in H;
  try match type of H with
      | failure (?t ++ _) = _ =>
          rewrite failure_app in H;
          let F := fresh "F" in
          destruct (failure t) as [[? ?]|] eqn:F;
          [ match goal with
            | R : FT.test_loop _ _ _ _ _ _ = (t, _) |- _ =>
                apply (failure_loop _ _ _ _ _ _ _ _ _ _ R) in F
            end;
            injection H as ? ?; subst; discriminate F
          | cbn [failure app ev_exn ev_call] in H ]
      | failure ?t = _ =>
          match goal with
          | R : FT.test_loop _ _ _ _ _ _ = (t, _) |- _ =>
              apply (failure_loop _ _ _ _ _ _ _ _ _ _ R) in H
          end
      end;
  try discriminate H.

(** X9.  When a BitSplit run stops at the [assert] of its configuration
    cell, the exception is
    [AssertionError('given weight budget not supported')] and the weight
    budget is indeed not among [config['W_ARGS']].  By then the dataset,
    the three loaders and the pretrained model exist, but no [BitSplit]
    object was built and nothing was tested or compressed. *)
Theorem unsupported_budget_stops_before_construction :
  forall w e,
    failure (trace_of BS.notebook w) = Some (Python "assert", e) ->
    e = AssertionError "given weight budget not supported" /\
    outcome BS.notebook w = Raise e /\
    compression_calls (trace_of BS.notebook w) = [] /\
    tests (trace_of BS.notebook w) = [] /\
    length (data_calls (trace_of BS.notebook w)) = 4%nat /\
    length (state_dict_loads (trace_of BS.notebook w)) = 1%nat /\
    exists text config kwargs budget w_args,
      read_text w "./bitsplit_config.yaml" = Ok text /\
      yaml_safe_load w text = Ok config /\
      getitem config (VStr "GENERAL") = Ok kwargs /\
      getitem kwargs (VStr "W_BUDGET") = Ok budget /\
      getitem config (VStr "W_ARGS") = Ok w_args /\
      contains yaml_leaf_eq w_args budget = Ok false.
Proof.
  intros w e H. every_run BS.notebook w E; find_failure H.
  injection H as <-.
  repeat (split; [reflexivity|]).
  do 5 eexists. repeat split; eassumption.
Qed.

Lemma unsupported_budget_stops_before_construction_witness :
  outcome BS.notebook Sample.unsupported_world =
    Raise (AssertionError "given weight budget not supported") /\
  compression_calls (trace_of BS.notebook Sample.unsupported_world) = [].
Proof.
  destruct (unsupported_budget_stops_before_construction
              Sample.unsupported_world
              (AssertionError "given weight budget not supported"))
    as (_ & O & C & _).
  - reflexivity.
  - split; assumption.
Defined.



(** X11.  The state dict the ChipNet notebook downloads is never used, but
    the download can still end the run: when the run stops at
    [load_state_dict_from_url], its outcome is the exception of the
    download, the model had already been created, and neither the dataset
    nor a loader nor the [ChipNet] object was built. *)
Theorem failed_download_ends_the_chipnet_run :
  forall w e,
    failure (trace_of CN.notebook w) =
      Some (LoadStateDictFromUrl CN.pretrained_weights, e) ->
    load_state_dict_from_url w CN.pretrained_weights = Raise e /\
    outcome CN.notebook w = Raise e /\
    data_calls (trace_of CN.notebook w) = [] /\
    compression_calls (trace_of CN.notebook w) = [] /\
    exists model, create_model w CN.model_call = Ok model.
Proof.
  intros w e H. every_run CN.notebook w E; find_failure H.
  injection H as <-.
  repeat (split; [reflexivity|]).
  eexists. reflexivity.
Qed.

Lemma failed_download_ends_the_chipnet_run_witness :
  outcome CN.notebook Cases.offline_world =
    Raise (Exn "URLError" "Temporary failure in name resolution") /\
  data_calls (trace_of CN.notebook Cases.offline_world) = [].
Proof.
  destruct (failed_download_ends_the_chipnet_run Cases.offline_world
              (Exn "URLError" "Temporary failure in name resolution"))
    as (_ & O & D & _).
  - reflexivity.
  - split; assumption.
Defined.

(** What a run constructed and compressed, read off the run. *)
Ltac one_object :=
  repeat match goal with u : unit |- _ => destruct u end;
  unfold constructed, compressed;
  cbn [select app ev_call];
  repeat match goal with
         | R : FT.test_loop _ _ _ _ _ _ = (?t, _)
           |- context [select _ (?t ++ _)] =>
             rewrite !(select_app _ t); drop_loop R
         | R : FT.test_loop _ _ _ _ _ _ = (?t, _)
           |- context [select _ ?t] => drop_loop R
         end;
  cbn [select app ev_call length];
  split; [lia|];
  let c := fresh "c" in
  let H := fresh "H" in
  intros c H; cbn [In] in H;
  repeat match type of H with
         | _ \/ _ => destruct H as [H|H]
         end;
  try contradiction;
  subst c; repeat split; assumption.

(** X12.  In every run of every notebook, complete or not, at most one
    compression object is constructed, and [compress_model] is called at
    most once, on that object and only after its constructor returned. *)
Theorem compression_needs_a_built_object :
  forall nb w, In nb notebooks ->
    (length (constructed (trace_of nb w)) <= 1)%nat /\
    forall c, In c (compressed (trace_of nb w)) ->
      compressed (trace_of nb w) = [c] /\
      constructed (trace_of nb w) = [c] /\
      init_compressor w c = Ok tt.
Proof.
  intros nb w H.
  repeat (destruct H as [<-|H]); [| | |destruct H];
    rewrite !trace_of_void.
  - every_run FT.notebook w E; one_object.
  - every_run CN.notebook w E; one_object.
  - every_run BS.notebook w E; one_object.
Qed.

Lemma compression_needs_a_built_object_witness :
  (length (constructed (trace_of (void BS.notebook) Sample.world))
     <= 1)%nat /\
  forall c,
    In c (compressed (trace_of (void BS.notebook) Sample.world)) ->
    compressed (trace_of (void BS.notebook) Sample.world) = [c] /\
    constructed (trace_of (void BS.notebook) Sample.world) = [c] /\
    init_compressor Sample.world c = Ok tt.
Proof.
  apply (compression_needs_a_built_object (void BS.notebook)).
  simpl. auto.
Defined.

End More.
